(** * AI Clipper backend: the request handlers of [main.py] over the
      schemas of [schemas.py] and a document store.

    The handlers are embedded as functions in a state-and-exception monad
    over the connection to the document store.  A Python [str] is a
    [string].  A [float] received in a request is a finite value given by
    its exact rational, the zero that carries a minus sign, an infinity or
    not-a-number; the float literals of the handlers are finite and kept
    as rationals.  A [bson.ObjectId] is its binary: the number of bytes
    and the number they denote. *)

From Stdlib Require Import Ascii QArith Qround Qabs Lqa.
From stdpp Require Import base option list strings gmap pretty.

Local Open Scope string_scope.

(** ** Python values *)

(** [sub in s] on [str]. *)
Fixpoint str_contains (sub s : string) : bool :=
  String.prefix sub s ||
  match s with
  | EmptyString => false
  | String _ t => str_contains sub t
  end.

(** Seconds since the epoch, in microseconds: a [datetime]. *)
Definition datetime : Type := Z.

(** A [float]. *)
Inductive float : Type :=
  | finite (q : Q)
  | neg_zero
  | pos_inf
  | neg_inf
  | nan.

(** The real number a float stands for, when it stands for one. *)
Definition float_value (x : float) : option Q :=
  match x with
  | finite q => Some q
  | neg_zero => Some 0%Q
  | _ => None
  end.

Definition is_neg_zero (x : float) : bool :=
  match x with
  | neg_zero => true
  | _ => false
  end.

(** [a <= b] on floats: false as soon as one side is not-a-number. *)
Definition float_le (a b : float) : bool :=
  match a, b with
  | nan, _ => false
  | _, nan => false
  | neg_inf, _ => true
  | _, pos_inf => true
  | pos_inf, _ => false
  | _, neg_inf => false
  | finite p, finite q => Qle_bool p q
  | finite p, neg_zero => Qle_bool p 0
  | neg_zero, finite q => Qle_bool 0 q
  | neg_zero, neg_zero => true
  end.

(** ** Exceptions *)

Inductive Exception : Type :=
  | HTTPException (status_code : nat) (detail : string)
  | ValidationError (loc : string)
  | InvalidId
  | TypeError
  | DuplicateKeyError
  | ServerSelectionTimeoutError (message : string)
  | StorageError.

Inductive Result (A : Type) : Type :=
  | Return (a : A)
  | Raise (e : Exception).
Arguments Return {A} a.
Arguments Raise {A} e.

(** [str(e)]. *)
Definition str_of_Exception (e : Exception) : string :=
  match e with
  | HTTPException _ detail => detail
  | ValidationError loc => "validation error: " ++ loc
  | InvalidId => "not a valid ObjectId"
  | TypeError => "'NoneType' object is not subscriptable"
  | DuplicateKeyError => "duplicate key error"
  | ServerSelectionTimeoutError message => message
  | StorageError => "Database not available"
  end.

(** ** bson.ObjectId *)

(** The binary of an [ObjectId]: [binary_size] bytes that denote
    [binary_value], most significant first.  The store issues twelve
    bytes; [ObjectId(s)] can build fewer. *)
Record ObjectId : Type := {
  binary_size : nat;
  binary_value : N
}.

Definition ObjectId_eqb (a b : ObjectId) : bool :=
  (binary_size a =? binary_size b)%nat && (binary_value a =? binary_value b)%N.

Definition hex_value (c : ascii) : option N :=
  let n := N_of_ascii c in
  if (48 <=? n)%N && (n <=? 57)%N then Some (n - 48)%N
  else if (97 <=? n)%N && (n <=? 102)%N then Some (n - 87)%N
  else if (65 <=? n)%N && (n <=? 70)%N then Some (n - 55)%N
  else None.

Definition hex_digit (n : N) : ascii :=
  if (n <? 10)%N then ascii_of_N (48 + n) else ascii_of_N (87 + n).

(** ASCII whitespace: tab, line feed, vertical tab, form feed, carriage
    return, space. *)
Definition is_space (c : ascii) : bool :=
  let n := N_of_ascii c in
  ((9 <=? n)%N && (n <=? 13)%N) || (n =? 32)%N.

(** [bytes.fromhex(s)]: two hexadecimal digits per byte, whitespace
    skipped before a byte; [size] bytes denoting [acc] have been read. *)
Fixpoint fromhex (s : string) (size : nat) (acc : N) : option (nat * N) :=
  match s with
  | EmptyString => Some (size, acc)
  | String c t =>
      if is_space c then fromhex t size acc
      else
        match hex_value c, t with
        | Some hi, String c' t' =>
            match hex_value c' with
            | Some lo => fromhex t' (S size) (acc * 256 + (hi * 16 + lo))%N
            | None => None
            end
        | _, _ => None
        end
  end.

(** [binascii.hexlify]: the [k] low bytes of [n], most significant
    first, two digits each, in front of [rest]. *)
Fixpoint hexlify (k : nat) (n : N) (rest : string) : string :=
  match k with
  | O => rest
  | S k' =>
      hexlify k' (n / 256)%N
        (String (hex_digit ((n / 16) mod 16)%N)
           (String (hex_digit (n mod 16)%N) rest))
  end.

(** [ObjectId(s)] for a [str]: [s] has twenty-four characters and
    [bytes.fromhex] reads it, or [InvalidId]. *)
Definition ObjectId_of_str (s : string) : Result ObjectId :=
  if (String.length s =? 24)%nat then
    match fromhex s 0 0 with
    | Some (k, n) => Return {| binary_size := k; binary_value := n |}
    | None => Raise InvalidId
    end
  else Raise InvalidId.

(** [str(oid)]. *)
Definition str_of_ObjectId (oid : ObjectId) : string :=
  hexlify (binary_size oid) (binary_value oid) "".

(** A new [ObjectId()] from twelve generated bytes. *)
Definition ObjectId_generate (bytes : N) : ObjectId :=
  {| binary_size := 12; binary_value := (bytes mod 2 ^ 96)%N |}.

(** ** Formatting a float with [:.0f] *)

(** The integer nearest to [q], ties to the even one. *)
Definition round_half_even (q : Q) : Z :=
  let f := Qfloor q in
  match (q - inject_Z f ?= 1 # 2)%Q with
  | Lt => f
  | Gt => (f + 1)%Z
  | Eq => if Z.even f then f else (f + 1)%Z
  end.

(** [f"{q:.0f}"] for a finite value [q] other than the negative zero. *)
Definition fixed0 (q : Q) : string :=
  (if Qle_bool 0 q then "" else "-") ++ pretty (Z.abs_N (round_half_even q)).

(** [f"{x:.0f}"]. *)
Definition format_0f (x : float) : string :=
  match x with
  | finite q => fixed0 q
  | neg_zero => "-0"
  | pos_inf => "inf"
  | neg_inf => "-inf"
  | nan => "nan"
  end.

(** ** Schema layer ([schemas.py]) *)

(** A validated, normalised URL: what a [HttpUrl] field holds. *)
Definition Url : Type := string.

Module Status.
Inductive t : Type := pending | analyzed | rendered | error.
End Status.

Module Position.
Inductive t : Type := top | center | bottom.
End Position.

Module Style.
Inductive t : Type := caption | title | subtitle | emoji.
End Style.

Module Animation.
Inductive t : Type := bounce | fade | slide | pop.

Definition str (a : t) : string :=
  match a with
  | bounce => "bounce" | fade => "fade" | slide => "slide" | pop => "pop"
  end.
End Animation.

Module DetectedMoment.
Record t : Type := {
  start_sec : Q;
  end_sec : Q;
  label : string;
  confidence : Q
}.

(** [DetectedMoment(...)]: [ge=0] on both bounds, [ge=0, le=1] on the
    confidence, which defaults to 0.8. *)
Definition new (start_sec end_sec : Q) (label : string)
    (confidence : option Q) : Result t :=
  let confidence := default (8 # 10) confidence in
  if negb (Qle_bool 0 start_sec) then Raise (ValidationError "start_sec")
  else if negb (Qle_bool 0 end_sec) then Raise (ValidationError "end_sec")
  else if negb (Qle_bool 0 confidence && Qle_bool confidence 1)
       then Raise (ValidationError "confidence")
  else Return {| start_sec := start_sec; end_sec := end_sec;
                 label := label; confidence := confidence |}.
End DetectedMoment.

Module VideoJob.
Record t : Type := {
  youtube_url : Url;
  title : option string;
  author : option string;
  thumbnail_url : option Url;
  status : Status.t;
  detected_moments : list DetectedMoment.t;
  created_at : option datetime;
  updated_at : option datetime
}.

(** [VideoJob(...)]: the two URL fields go through the [HttpUrl]
    validation, given as [HttpUrl]: the normalised URL, or [None] when
    the string is not an http(s) URL. *)
Definition new (HttpUrl : string -> option Url) (youtube_url : string)
    (title author : option string) (thumbnail_url : option string)
    (status : Status.t) (detected_moments : list DetectedMoment.t)
    (created_at updated_at : option datetime) : Result t :=
  match HttpUrl youtube_url with
  | None => Raise (ValidationError "youtube_url")
  | Some u =>
      let job thumbnail :=
        {| youtube_url := u; title := title; author := author;
           thumbnail_url := thumbnail; status := status;
           detected_moments := detected_moments;
           created_at := created_at; updated_at := updated_at |} in
      match thumbnail_url with
      | None => Return (job None)
      | Some s =>
          match HttpUrl s with
          | None => Raise (ValidationError "thumbnail_url")
          | Some v => Return (job (Some v))
          end
      end
  end.
End VideoJob.

Module OverlayText.
Record t : Type := {
  content : string;
  position : Position.t;
  style : Style.t
}.
End OverlayText.

Module ClipRequest.
Record t : Type := {
  job_id : string;
  start_sec : float;
  end_sec : float;
  overlays : list OverlayText.t;
  animation : Animation.t;
  emoji : option string
}.

(** The [ge=0] constraints, checked before [create_clip] is entered. *)
Definition valid (req : t) : bool :=
  float_le (finite 0) (start_sec req) && float_le (finite 0) (end_sec req).
End ClipRequest.

Module ClipResult.
Record t : Type := {
  job_id : string;
  preview_url : option string;
  start_sec : float;
  end_sec : float;
  overlays : list OverlayText.t;
  animation : string;
  emoji : option string;
  created_at : option datetime
}.
End ClipResult.

(** Modelled from the spec: [VideoJobOut] is imported by [main.py] but
    [schemas.py] does not declare it; the spec gives the response as
    the VideoJob together with its generated id. *)
Module VideoJobOut.
Record t : Type := {
  id : string;
  job : VideoJob.t
}.
End VideoJobOut.

(** ** The document store *)

(** A stored document: the fields of a VideoJob under its [_id]. *)
Record Document : Type := {
  _id : ObjectId;
  fields : VideoJob.t
}.

(** A collection holds its documents in store order; a database maps
    collection names to collections, an unknown name to the empty one. *)
Abbreviation Collection := (list Document).
Abbreviation Database := (gmap string Collection).

(** [db] of [database.py]: [None] until a connection is configured;
    then a handle on a server that answers, or on one that does not, in
    which case every operation of the driver raises. *)
Inductive Conn : Type :=
  | NotInitialised
  | Connected (d : Database)
  | Unreachable (d : Database) (why : string).

Definition has_id (oid : ObjectId) (d : Document) : bool :=
  ObjectId_eqb (_id d) oid.

(** What BSON keeps of a [datetime]: whole milliseconds. *)
Definition bson_datetime (t : datetime) : datetime := (t / 1000 * 1000)%Z.

(** The fields of a job as the store holds them. *)
Definition bson_fields (job : VideoJob.t) : VideoJob.t :=
  {| VideoJob.youtube_url := VideoJob.youtube_url job;
     VideoJob.title := VideoJob.title job;
     VideoJob.author := VideoJob.author job;
     VideoJob.thumbnail_url := VideoJob.thumbnail_url job;
     VideoJob.status := VideoJob.status job;
     VideoJob.detected_moments := VideoJob.detected_moments job;
     VideoJob.created_at := bson_datetime <$> VideoJob.created_at job;
     VideoJob.updated_at := bson_datetime <$> VideoJob.updated_at job |}.

(** ** The handler monad: exceptions over the store connection *)

Definition M (A : Type) : Type := Conn -> Result A * Conn.

Definition ret {A} (a : A) : M A := fun db => (Return a, db).
Definition raise {A} (e : Exception) : M A := fun db => (Raise e, db).
Definition lift {A} (r : Result A) : M A := fun db => (r, db).
Definition bind {A B} (c : M A) (k : A -> M B) : M B :=
  fun db =>
    match c db with
    | (Return a, db') => k a db'
    | (Raise e, db') => (Raise e, db')
    end.

Notation "'do' x <- c ; k" := (bind c (fun x => k))
  (at level 10, x name, c at level 100, k at level 200).

(** [try: body / except Exception as e: handler e]. *)
Definition try_except {A} (body : M A) (handler : Exception -> M A) : M A :=
  fun db =>
    match body db with
    | (Return a, db') => (Return a, db')
    | (Raise e, db') => handler e db'
    end.

(** *** The driver *)

(** [db[name]]: subscripting [None] is a [TypeError]; on a handle it
    does not reach for the server. *)
Definition db_getitem (name : string) : M string :=
  fun db =>
    match db with
    | NotInitialised => (Raise TypeError, db)
    | _ => (Return name, db)
    end.

(** [db[name].find_one({"_id": oid})]. *)
Definition find_one (name : string) (oid : ObjectId) : M (option Document) :=
  fun db =>
    match db with
    | NotInitialised => (Raise TypeError, db)
    | Connected d => (Return (List.find (has_id oid) (d !!! name)), db)
    | Unreachable _ why => (Raise (ServerSelectionTimeoutError why), db)
    end.

(** [db[name].insert_one(doc)]: [_id] is unique within a collection;
    the document is kept as BSON holds it. *)
Definition insert_one (name : string) (doc : Document) : M ObjectId :=
  fun db =>
    match db with
    | NotInitialised => (Raise TypeError, db)
    | Connected d =>
        if existsb (has_id (_id doc)) (d !!! name)
        then (Raise DuplicateKeyError, db)
        else
          let stored := {| _id := _id doc; fields := bson_fields (fields doc) |} in
          (Return (_id doc),
           Connected (<[name := ((d !!! name) ++ [stored])%list]> d))
    | Unreachable _ why => (Raise (ServerSelectionTimeoutError why), db)
    end.

(** [db.list_collection_names()]. *)
Definition list_collection_names : M (list string) :=
  fun db =>
    match db with
    | NotInitialised => (Raise TypeError, db)
    | Connected d => (Return (fst <$> map_to_list d), db)
    | Unreachable _ why => (Raise (ServerSelectionTimeoutError why), db)
    end.

(** *** [database.py] *)

(** Modelled from the spec: [database.py] is not among the sources.
    insert(collectionName, document) inserts the document into the named
    collection and returns the newly generated unique identifier as a
    string; it fails with a StorageError if the connection is
    unavailable.  [bytes] are the twelve bytes generated for the id. *)
Definition create_document (collection_name : string) (data : VideoJob.t)
    (bytes : N) : M string :=
  fun db =>
    match db with
    | Connected _ =>
        (do oid <- insert_one collection_name
                     {| _id := ObjectId_generate bytes; fields := data |};
         ret (str_of_ObjectId oid)) db
    | _ => (Raise StorageError, db)
    end.

(** Modelled from the spec: [database.py] is not among the sources.
    find(collectionName, filter, limit) produces up to [limit] matching
    documents in store order; the handlers only pass the empty filter.
    Without a connection that answers it is taken to fail as insert
    does. *)
Definition get_documents (collection_name : string) (limit : Z)
    : M Collection :=
  fun db =>
    match db with
    | Connected d => (Return (take (Z.to_nat limit) (d !!! collection_name)), db)
    | _ => (Raise StorageError, db)
    end.

(** ** What the process reads from its surroundings *)

Record Env : Type := {
  now : nat -> datetime;          (* successive [datetime.now] readings *)
  object_id_bytes : N;            (* the bytes of the next generated id *)
  DATABASE_URL : option string;   (* [os.getenv] *)
  DATABASE_NAME : option string
}.

(** Truthiness of [os.getenv(name)]. *)
Definition getenv_set (v : option string) : bool :=
  match v with
  | Some s => negb (String.eqb s "")
  | None => false
  end.

(** ** API layer ([main.py]) *)

Module AnalyzeRequest.
Record t : Type := { youtube_url : string }.
End AnalyzeRequest.

Module TestResponse.
Record t : Type := {
  backend : string;
  database : string;
  database_url : option string;
  database_name : option string;
  connection_status : string;
  collections : list string
}.
End TestResponse.

Definition read_root : M string := ret "AI Clipper Backend Running".

Definition test_database (env : Env) : M TestResponse.t :=
  fun db =>
    match db with
    | NotInitialised =>
        (Return {| TestResponse.backend := "✅ Running";
                   TestResponse.database := "⚠️ Available but not initialized";
                   TestResponse.database_url := None;
                   TestResponse.database_name := None;
                   TestResponse.connection_status := "Not Connected";
                   TestResponse.collections := [] |}, db)
    | _ =>
        let url := if getenv_set (DATABASE_URL env) then "✅ Set" else "❌ Not Set" in
        let name := if getenv_set (DATABASE_NAME env) then "✅ Set" else "❌ Not Set" in
        match list_collection_names db with
        | (Return names, db') =>
            (Return {| TestResponse.backend := "✅ Running";
                       TestResponse.database := "✅ Connected & Working";
                       TestResponse.database_url := Some url;
                       TestResponse.database_name := Some name;
                       TestResponse.connection_status := "Connected";
                       TestResponse.collections := take 10 names |}, db')
        | (Raise e, db') =>
            (Return {| TestResponse.backend := "✅ Running";
                       TestResponse.database :=
                         "⚠️ Connected but Error: "
                         ++ String.substring 0 80 (str_of_Exception e);
                       TestResponse.database_url := Some url;
                       TestResponse.database_name := Some name;
                       TestResponse.connection_status := "Not Connected";
                       TestResponse.collections := [] |}, db')
        end
    end.

Section Handlers.

(** The [HttpUrl] validation of pydantic. *)
Variable HttpUrl : string -> option Url.

Definition analyze_youtube (env : Env) (req : AnalyzeRequest.t)
    : M VideoJobOut.t :=
  let url := AnalyzeRequest.youtube_url req in
  if String.eqb url "" || negb (str_contains "youtube" url) then
    raise (HTTPException 400 "URL harus berupa link YouTube yang valid")
  else
    do m1 <- lift (DetectedMoment.new 5 12 "Intro punch" (Some (91 # 100)));
    do m2 <- lift (DetectedMoment.new 35 48 "Key point" (Some (88 # 100)));
    do m3 <- lift (DetectedMoment.new 120 136 "Best moment" (Some (93 # 100)));
    let moments := [m1; m2; m3] in
    do job <- lift (VideoJob.new HttpUrl url None None None Status.analyzed
                      moments (Some (now env 0)) (Some (now env 1)));
    do job_id <- create_document "videojob" job (object_id_bytes env);
    ret {| VideoJobOut.id := job_id; VideoJobOut.job := job |}.

Definition list_jobs (limit : Z) : M (list VideoJobOut.t) :=
  do docs <- get_documents "videojob" limit;
  ret ((fun d => {| VideoJobOut.id := str_of_ObjectId (_id d);
                    VideoJobOut.job := fields d |}) <$> docs).

Definition get_job (job_id : string) : M VideoJobOut.t :=
  try_except
    (do coll <- db_getitem "videojob";
     do oid <- lift (ObjectId_of_str job_id);
     do doc <- find_one coll oid;
     match doc with
     | None => raise (HTTPException 404 "Job tidak ditemukan")
     | Some doc => ret {| VideoJobOut.id := str_of_ObjectId (_id doc);
                          VideoJobOut.job := fields doc |}
     end)
    (fun e =>
       match e with
       | HTTPException _ _ => raise e
       | _ => raise (HTTPException 400 "ID tidak valid")
       end).

Definition create_clip (env : Env) (req : ClipRequest.t) : M ClipResult.t :=
  do _ <- try_except
            (do coll <- db_getitem "videojob";
             do oid <- lift (ObjectId_of_str (ClipRequest.job_id req));
             find_one coll oid)
            (fun _ => raise (HTTPException 400 "Job ID tidak valid"));
  if float_le (ClipRequest.end_sec req) (ClipRequest.start_sec req) then
    raise (HTTPException 400 "end_sec harus lebih besar dari start_sec")
  else
    let preview_url :=
      "https://placehold.co/1280x720?text=Clip+"
      ++ format_0f (ClipRequest.start_sec req) ++ "-"
      ++ format_0f (ClipRequest.end_sec req) ++ "s" in
    ret {| ClipResult.job_id := ClipRequest.job_id req;
           ClipResult.preview_url := Some preview_url;
           ClipResult.start_sec := ClipRequest.start_sec req;
           ClipResult.end_sec := ClipRequest.end_sec req;
           ClipResult.overlays := ClipRequest.overlays req;
           ClipResult.animation := Animation.str (ClipRequest.animation req);
           ClipResult.emoji := ClipRequest.emoji req;
           ClipResult.created_at := Some (now env 0) |}.

(** ** The HTTP boundary *)

Inductive Request : Type :=
  | GET_root
  | GET_test
  | POST_analyze (req : AnalyzeRequest.t)
  | GET_jobs (limit : Z)
  | GET_job (job_id : string)
  | POST_clip (req : ClipRequest.t).

Inductive Body : Type :=
  | Message (m : string)
  | Diagnostic (r : TestResponse.t)
  | Job (j : VideoJobOut.t)
  | Jobs (js : list VideoJobOut.t)
  | Clip (c : ClipResult.t).

Definition fmapM {A B} (f : A -> B) (c : M A) : M B :=
  do a <- c; ret (f a).

(** The routing table of the application. *)
Definition serve (env : Env) (r : Request) : M Body :=
  match r with
  | GET_root => fmapM Message read_root
  | GET_test => fmapM Diagnostic (test_database env)
  | POST_analyze req => fmapM Job (analyze_youtube env req)
  | GET_jobs limit => fmapM Jobs (list_jobs limit)
  | GET_job job_id => fmapM Job (get_job job_id)
  | POST_clip req => fmapM Clip (create_clip env req)
  end.

End Handlers.

(** The status the framework answers with: an [HTTPException] carries
    its own, any other exception leaving a handler is a 500. *)
Definition http_status {A} (r : Result A) : nat :=
  match r with
  | Return _ => 200
  | Raise (HTTPException status_code _) => status_code
  | Raise _ => 500
  end.

(** An exception that leaves the handler without having been turned
    into an [HTTPException]. *)
Definition unhandled {A} (r : Result A) : bool :=
  match r with
  | Raise (HTTPException _ _) => false
  | Raise _ => true
  | Return _ => false
  end.

(** ** Concrete surroundings for running the handlers *)

(** A [HttpUrl] validation to run the handlers with: it accepts the
    strings that start with an http or https scheme and keeps them as
    they are. *)
Definition http_scheme_url (s : string) : option Url :=
  if String.prefix "http://" s || String.prefix "https://" s
  then Some s else None.

Definition env0 : Env :=
  {| now := Z.of_nat; object_id_bytes := 1;
     DATABASE_URL := Some "mongodb://localhost:27017";
     DATABASE_NAME := Some "clipper" |}.

(** The surroundings of a later request: the next identifier is 2. *)
Definition env1 : Env :=
  {| now := fun n => Z.of_nat (n + 2); object_id_bytes := 2;
     DATABASE_URL := None; DATABASE_NAME := None |}.

Definition watch_url : string := "https://www.youtube.com/watch?v=dQw4w9WgXcQ".

Definition analyze0 : AnalyzeRequest.t :=
  {| AnalyzeRequest.youtube_url := watch_url |}.

Definition clip (job_id : string) (start_sec end_sec : float)
    : ClipRequest.t :=
  {| ClipRequest.job_id := job_id;
     ClipRequest.start_sec := start_sec; ClipRequest.end_sec := end_sec;
     ClipRequest.overlays :=
       [ {| OverlayText.content := "wow";
            OverlayText.position := Position.top;
            OverlayText.style := Style.title |} ];
     ClipRequest.animation := Animation.fade;
     ClipRequest.emoji := Some ":)" |}.

(** The three moments every analysis reports. *)
Definition heuristic_moments : list DetectedMoment.t :=
  [ {| DetectedMoment.start_sec := 5; DetectedMoment.end_sec := 12;
       DetectedMoment.label := "Intro punch";
       DetectedMoment.confidence := 91 # 100 |};
    {| DetectedMoment.start_sec := 35; DetectedMoment.end_sec := 48;
       DetectedMoment.label := "Key point";
       DetectedMoment.confidence := 88 # 100 |};
    {| DetectedMoment.start_sec := 120; DetectedMoment.end_sec := 136;
       DetectedMoment.label := "Best moment";
       DetectedMoment.confidence := 93 # 100 |} ].

(** The job [analyze_youtube] builds for a validated URL [u]. *)
Definition analyzed_job (u : Url) (env : Env) : VideoJob.t :=
  {| VideoJob.youtube_url := u; VideoJob.title := None;
     VideoJob.author := None; VideoJob.thumbnail_url := None;
     VideoJob.status := Status.analyzed;
     VideoJob.detected_moments := heuristic_moments;
     VideoJob.created_at := Some (now env 0);
     VideoJob.updated_at := Some (now env 1) |}.

(** The store after [doc] has been appended to collection [name]. *)
Definition with_document (name : string) (doc : Document) (d : Database)
    : Database :=
  <[name := ((d !!! name) ++ [doc])%list]> d.

(** The document an analysis of [watch_url] leaves in the store when
    the identifier generated for it is 1. *)
Definition doc1 : Document :=
  {| _id := ObjectId_generate 1;
     fields := bson_fields (analyzed_job watch_url env0) |}.

(** A store that holds that one job. *)
Definition store1 : Database := with_document "videojob" doc1 ∅.

(** Identifiers of a collection as the store issues them: each is twelve
    bytes wide and none occurs twice. *)
Fixpoint ids_ok (c : Collection) : bool :=
  match c with
  | [] => true
  | d :: c' =>
      (binary_size (_id d) =? 12)%nat && (binary_value (_id d) <? 2 ^ 96)%N
      && negb (existsb (has_id (_id d)) c') && ids_ok c'
  end.

(** The response [list_jobs] and [get_job] give for a stored document. *)
Definition job_out (d : Document) : VideoJobOut.t :=
  {| VideoJobOut.id := str_of_ObjectId (_id d); VideoJobOut.job := fields d |}.

(** A store whose only job sits under identifier 10 (hexadecimal a). *)
Definition doc10 : Document :=
  {| _id := ObjectId_generate 10;
     fields := bson_fields (analyzed_job watch_url env0) |}.

(** * Properties *)

(** ** Identifiers *)

Lemma hex_value_digit (m : N) :
  (m < 16)%N -> hex_value (hex_digit m) = Some m.
Proof.
  intros Hm.
  destruct m as [|p]; [reflexivity|].
  do 4 (destruct p as [p|p|]; try reflexivity; try lia).
Qed.

Lemma is_space_digit (m : N) : (m < 16)%N -> is_space (hex_digit m) = false.
Proof.
  intros Hm.
  destruct m as [|p]; [reflexivity|].
  do 4 (destruct p as [p|p|]; try reflexivity; try lia).
Qed.

Lemma fromhex_hexlify (k : nat) :
  forall (n : N) (rest : string) (size : nat) (a : N),
    fromhex (hexlify k n rest) size a
    = fromhex rest (size + k)
        (a * 256 ^ N.of_nat k + n mod 256 ^ N.of_nat k)%N.
Proof.
  induction k as [|k IH]; intros n rest size a.
  - simpl. rewrite N.mod_1_r, Nat.add_0_r. f_equal. lia.
  - cbn [hexlify]. rewrite IH. cbn [fromhex].
    rewrite is_space_digit by (apply N.mod_lt; lia).
    rewrite !hex_value_digit by (apply N.mod_lt; lia).
    rewrite Nat.add_succ_r. f_equal.
    rewrite Nat2N.inj_succ, N.pow_succ_r'.
    assert (n mod 256 = n mod 16 + 16 * ((n / 16) mod 16))%N as Hbyte
      by (change 256%N with (16 * 16)%N; apply N.Div0.mod_mul_r).
    rewrite (N.Div0.mod_mul_r n 256), Hbyte. ring.
Qed.

Lemma length_hexlify (k : nat) :
  forall (n : N) (rest : string),
    String.length (hexlify k n rest) = (2 * k + String.length rest)%nat.
Proof.
  induction k as [|k IH]; intros n rest; [reflexivity|].
  cbn [hexlify]. rewrite IH. simpl. lia.
Qed.

Lemma ObjectId_roundtrip (oid : ObjectId) :
  binary_size oid = 12%nat ->
  (binary_value oid < 2 ^ 96)%N ->
  ObjectId_of_str (str_of_ObjectId oid) = Return oid.
Proof.
  destruct oid as [k n]. cbn [binary_size binary_value]. intros -> Hlt.
  unfold ObjectId_of_str, str_of_ObjectId. cbn [binary_size binary_value].
  rewrite length_hexlify. cbn [String.length Nat.add Nat.mul Nat.eqb].
  rewrite fromhex_hexlify. cbn [fromhex Nat.add].
  change (256 ^ N.of_nat 12)%N with (2 ^ 96)%N.
  rewrite N.mod_small by exact Hlt. reflexivity.
Qed.

Lemma ObjectId_generate_size (bytes : N) :
  binary_size (ObjectId_generate bytes) = 12%nat.
Proof. reflexivity. Qed.

Lemma ObjectId_generate_lt (bytes : N) :
  (binary_value (ObjectId_generate bytes) < 2 ^ 96)%N.
Proof. cbn. apply N.mod_lt. discriminate. Qed.

Lemma ObjectId_generate_roundtrip (bytes : N) :
  ObjectId_of_str (str_of_ObjectId (ObjectId_generate bytes))
  = Return (ObjectId_generate bytes).
Proof.
  apply ObjectId_roundtrip;
    [apply ObjectId_generate_size|apply ObjectId_generate_lt].
Qed.

Lemma ObjectId_of_str_raises (s : string) (e : Exception) :
  ObjectId_of_str s = Raise e -> e = InvalidId.
Proof.
  unfold ObjectId_of_str.
  destruct (_ =? _)%nat; [destruct (fromhex s 0 0) as [[k n]|]|]; congruence.
Qed.

Lemma ObjectId_eqb_refl (a : ObjectId) : ObjectId_eqb a a = true.
Proof. unfold ObjectId_eqb. now rewrite Nat.eqb_refl, N.eqb_refl. Qed.

Lemma ObjectId_eqb_eq (a b : ObjectId) : ObjectId_eqb a b = true -> a = b.
Proof.
  destruct a as [k n], b as [k' n']. unfold ObjectId_eqb. cbn.
  intros H. apply andb_prop in H as [Hk Hn].
  apply Nat.eqb_eq in Hk. apply N.eqb_eq in Hn. congruence.
Qed.

Lemma ObjectId_eqb_sym (a b : ObjectId) : ObjectId_eqb a b = ObjectId_eqb b a.
Proof. unfold ObjectId_eqb. now rewrite Nat.eqb_sym, N.eqb_sym. Qed.

(** ** Collections *)

Lemma find_app_Some {A} (p : A -> bool) (l l' : list A) (x : A) :
  List.find p l = Some x -> List.find p (l ++ l') = Some x.
Proof.
  induction l as [|y l IH]; simpl; [discriminate|].
  destruct (p y); auto.
Qed.

Lemma find_app_new {A} (p : A -> bool) (l : list A) (x : A) :
  existsb p l = false -> p x = true -> List.find p (l ++ [x]) = Some x.
Proof.
  induction l as [|y l IH]; simpl; intros Hl Hx.
  - now rewrite Hx.
  - destruct (p y); [discriminate|]. auto.
Qed.

Lemma has_id_own (doc : Document) : has_id (_id doc) doc = true.
Proof. unfold has_id. apply ObjectId_eqb_refl. Qed.

Lemma has_id_eq (oid : ObjectId) (doc : Document) :
  has_id oid doc = true -> _id doc = oid.
Proof. unfold has_id. apply ObjectId_eqb_eq. Qed.

Lemma with_document_find (name name' : string) (oid : ObjectId)
    (new old : Document) (d : Database) :
  List.find (has_id oid) (d !!! name') = Some old ->
  List.find (has_id oid) (with_document name new d !!! name') = Some old.
Proof.
  intros Hfind. unfold with_document.
  destruct (decide (name = name')) as [->|Hne].
  - rewrite lookup_total_insert_eq. now apply find_app_Some.
  - now rewrite lookup_total_insert_ne.
Qed.

Lemma with_document_lookup (name name' : string) (i : nat)
    (new old : Document) (d : Database) :
  (d !!! name') !! i = Some old ->
  (with_document name new d !!! name') !! i = Some old.
Proof.
  intros Hi. unfold with_document.
  destruct (decide (name = name')) as [->|Hne].
  - rewrite lookup_total_insert_eq. now apply lookup_app_l_Some.
  - now rewrite lookup_total_insert_ne.
Qed.

(** ** Rounding *)

Lemma round_half_even_nearest (q : Q) :
  (Qabs (inject_Z (round_half_even q) - q) <= 1 # 2)%Q.
Proof.
  pose proof (Qfloor_le q) as Hlo. pose proof (Qlt_floor q) as Hhi.
  rewrite inject_Z_plus in Hhi.
  apply Qabs_Qle_condition. unfold round_half_even.
  destruct (Qcompare_spec (q - inject_Z (Qfloor q)) (1 # 2)) as [He|Hl|Hg];
    [destruct (Z.even (Qfloor q))|..];
    rewrite ?inject_Z_plus; change (inject_Z 1) with 1%Q in *;
    revert Hlo Hhi; try revert He; try revert Hl; try revert Hg;
    generalize (inject_Z (Qfloor q)); intros f; intros; split; lra.
Qed.

Lemma round_half_even_nonneg (q : Q) : (0 <= q)%Q -> (0 <= round_half_even q)%Z.
Proof.
  intros Hq.
  assert (0 <= Qfloor q)%Z as Hf.
  { change 0%Z with (Qfloor 0). now apply Qfloor_resp_le. }
  unfold round_half_even.
  destruct (_ ?= _)%Q; [destruct (Z.even _)|..]; lia.
Qed.

Lemma fixed0_nonneg (q : Q) :
  (0 <= q)%Q -> fixed0 q = pretty (round_half_even q).
Proof.
  intros Hq. unfold fixed0.
  apply Qle_bool_iff in Hq as Hb. rewrite Hb. simpl.
  pose proof (round_half_even_nonneg q Hq) as Hr.
  destruct (round_half_even q); try reflexivity. lia.
Qed.

(** A float with a non-negative value is spelled by its nearest integer,
    the negative zero as -0. *)
Lemma format_0f_nonneg (x : float) (q : Q) :
  float_value x = Some q -> (0 <= q)%Q ->
  format_0f x = if is_neg_zero x then "-0" else pretty (round_half_even q).
Proof.
  destruct x; cbn; try discriminate.
  - intros [= <-]. apply fixed0_nonneg.
  - reflexivity.
Qed.

Lemma float_le_values (a b : float) (p q : Q) :
  float_value a = Some p -> float_value b = Some q ->
  float_le a b = Qle_bool p q.
Proof.
  destruct a, b; cbn; try discriminate; intros [= <-] [= <-]; reflexivity.
Qed.

(** ** The handlers, run *)

Lemma str_contains_nonempty (sub s : string) :
  sub <> "" -> str_contains sub s = true -> String.eqb s "" = false.
Proof.
  intros Hsub Hc. destruct s as [|c s]; [|reflexivity].
  destruct sub; [congruence|discriminate].
Qed.

Lemma analyze_youtube_checked (HttpUrl : string -> option Url) (env : Env)
    (req : AnalyzeRequest.t) (db : Conn) :
  str_contains "youtube" (AnalyzeRequest.youtube_url req) = true ->
  analyze_youtube HttpUrl env req db =
    match HttpUrl (AnalyzeRequest.youtube_url req) with
    | None => (Raise (ValidationError "youtube_url"), db)
    | Some u =>
        match db with
        | Connected d =>
            let oid := ObjectId_generate (object_id_bytes env) in
            let doc := {| _id := oid;
                          fields := bson_fields (analyzed_job u env) |} in
            if existsb (has_id oid) (d !!! "videojob")
            then (Raise DuplicateKeyError, db)
            else (Return {| VideoJobOut.id := str_of_ObjectId oid;
                            VideoJobOut.job := analyzed_job u env |},
                  Connected (with_document "videojob" doc d))
        | _ => (Raise StorageError, db)
        end
    end.
Proof.
  intros Hc. unfold analyze_youtube.
  rewrite (str_contains_nonempty "youtube" _ ltac:(discriminate) Hc), Hc.
  cbn [orb negb]. unfold bind, lift, ret, VideoJob.new. simpl.
  destruct (HttpUrl (AnalyzeRequest.youtube_url req)) as [u|]; [|reflexivity].
  destruct db as [|d|d why]; [reflexivity| |reflexivity].
  unfold create_document, insert_one, bind, ret. cbn [_id fields].
  destruct (existsb _ _); reflexivity.
Qed.

Lemma analyze_youtube_rejected (HttpUrl : string -> option Url) (env : Env)
    (req : AnalyzeRequest.t) (db : Conn) :
  str_contains "youtube" (AnalyzeRequest.youtube_url req) = false ->
  analyze_youtube HttpUrl env req db =
    (Raise (HTTPException 400 "URL harus berupa link YouTube yang valid"), db).
Proof.
  intros Hc. unfold analyze_youtube. rewrite Hc, orb_true_r. reflexivity.
Qed.

Lemma get_job_run (job_id : string) (db : Conn) :
  get_job job_id db =
    match db with
    | Connected d =>
        match ObjectId_of_str job_id with
        | Raise _ => (Raise (HTTPException 400 "ID tidak valid"), db)
        | Return oid =>
            match List.find (has_id oid) (d !!! "videojob") with
            | None => (Raise (HTTPException 404 "Job tidak ditemukan"), db)
            | Some doc =>
                (Return {| VideoJobOut.id := str_of_ObjectId (_id doc);
                           VideoJobOut.job := fields doc |}, db)
            end
        end
    | _ => (Raise (HTTPException 400 "ID tidak valid"), db)
    end.
Proof.
  unfold get_job, try_except, bind, lift, db_getitem, find_one, raise, ret.
  destruct db as [|d|d why]; [reflexivity| |].
  - destruct (ObjectId_of_str job_id) as [oid|e] eqn:Hid.
    + destruct (List.find _ _) as [doc|]; reflexivity.
    + now rewrite (ObjectId_of_str_raises _ _ Hid).
  - destruct (ObjectId_of_str job_id) as [oid|e] eqn:Hid; [reflexivity|].
    now rewrite (ObjectId_of_str_raises _ _ Hid).
Qed.

Lemma create_clip_run (env : Env) (req : ClipRequest.t) (db : Conn) :
  create_clip env req db =
    match db, ObjectId_of_str (ClipRequest.job_id req) with
    | Connected _, Return _ =>
        if float_le (ClipRequest.end_sec req) (ClipRequest.start_sec req) then
          (Raise (HTTPException 400 "end_sec harus lebih besar dari start_sec"), db)
        else
          (Return {| ClipResult.job_id := ClipRequest.job_id req;
                     ClipResult.preview_url :=
                       Some ("https://placehold.co/1280x720?text=Clip+"
                             ++ format_0f (ClipRequest.start_sec req) ++ "-"
                             ++ format_0f (ClipRequest.end_sec req) ++ "s");
                     ClipResult.start_sec := ClipRequest.start_sec req;
                     ClipResult.end_sec := ClipRequest.end_sec req;
                     ClipResult.overlays := ClipRequest.overlays req;
                     ClipResult.animation :=
                       Animation.str (ClipRequest.animation req);
                     ClipResult.emoji := ClipRequest.emoji req;
                     ClipResult.created_at := Some (now env 0) |}, db)
    | _, _ => (Raise (HTTPException 400 "Job ID tidak valid"), db)
    end.
Proof.
  unfold create_clip, try_except, bind, lift, db_getitem, find_one, raise, ret.
  destruct db as [|d|d why]; [reflexivity| |].
  - destruct (ObjectId_of_str (ClipRequest.job_id req)) as [oid|e]; [|reflexivity].
    destruct (float_le _ _); reflexivity.
  - destruct (ObjectId_of_str (ClipRequest.job_id req)) as [oid|e]; reflexivity.
Qed.

(** ** The store across a request *)

Lemma fmapM_state {A B} (f : A -> B) (c : M A) (db : Conn) :
  snd (fmapM f c db) = snd (c db).
Proof. unfold fmapM, bind, ret. now destruct (c db) as [[a|e] db']. Qed.

Lemma analyze_youtube_state (HttpUrl : string -> option Url) (env : Env)
    (req : AnalyzeRequest.t) (db : Conn) :
  snd (analyze_youtube HttpUrl env req db) = db
  \/ exists (d : Database) (doc : Document),
       db = Connected d
       /\ existsb (has_id (_id doc)) (d !!! "videojob") = false
       /\ VideoJob.status (fields doc) = Status.analyzed
       /\ snd (analyze_youtube HttpUrl env req db)
          = Connected (with_document "videojob" doc d).
Proof.
  destruct (str_contains "youtube" (AnalyzeRequest.youtube_url req)) eqn:Hc;
    [|left; now rewrite (analyze_youtube_rejected _ _ _ _ Hc)].
  rewrite (analyze_youtube_checked _ _ _ _ Hc).
  destruct (HttpUrl _) as [u|]; [|now left].
  destruct db as [|d|d why]; [now left| |now left].
  cbn zeta. destruct (existsb _ _) eqn:Hnew; [now left|].
  right.
  exists d, {| _id := ObjectId_generate (object_id_bytes env);
               fields := bson_fields (analyzed_job u env) |}.
  auto.
Qed.

Lemma serve_state (HttpUrl : string -> option Url) (env : Env) (r : Request)
    (db : Conn) :
  snd (serve HttpUrl env r db) = db
  \/ exists (req : AnalyzeRequest.t) (d : Database) (doc : Document),
       r = POST_analyze req
       /\ db = Connected d
       /\ existsb (has_id (_id doc)) (d !!! "videojob") = false
       /\ VideoJob.status (fields doc) = Status.analyzed
       /\ snd (serve HttpUrl env r db)
          = Connected (with_document "videojob" doc d).
Proof.
  destruct r as [| |req|limit|job_id|req]; cbn [serve]; rewrite fmapM_state.
  - now left.
  - left. unfold test_database, list_collection_names. now destruct db.
  - destruct (analyze_youtube_state HttpUrl env req db)
      as [Hsame|(d & doc & Hdb & Hnew & Hst & Hrun)]; [now left|].
    right. now exists req, d, doc.
  - left. unfold list_jobs, get_documents, bind, ret. now destruct db.
  - left. rewrite get_job_run.
    destruct db; [|destruct (ObjectId_of_str _); [destruct (List.find _ _)|]|];
      reflexivity.
  - left. rewrite create_clip_run.
    destruct db; [|destruct (ObjectId_of_str _); [destruct (float_le _ _)|]|];
      reflexivity.
Qed.

(** ** Analyze *)

(** C1 (as amended): for every analyze request whose [youtube_url]
    contains "youtube" and is accepted as a URL, when the store is
    connected and the generated identifier is not yet used in the
    [videojob] collection, the handler returns a job with status
    [analyzed] and exactly the three fixed moments, in order. *)
Theorem analyze_youtube_moments (HttpUrl : string -> option Url) (env : Env)
    (req : AnalyzeRequest.t) (d : Database) (u : Url) :
  str_contains "youtube" (AnalyzeRequest.youtube_url req) = true ->
  HttpUrl (AnalyzeRequest.youtube_url req) = Some u ->
  existsb (has_id (ObjectId_generate (object_id_bytes env)))
          (d !!! "videojob") = false ->
  exists (out : VideoJobOut.t) (d' : Database),
    analyze_youtube HttpUrl env req (Connected d) = (Return out, Connected d')
    /\ VideoJob.status (VideoJobOut.job out) = Status.analyzed
    /\ VideoJob.detected_moments (VideoJobOut.job out) =
         [ {| DetectedMoment.start_sec := 5; DetectedMoment.end_sec := 12;
              DetectedMoment.label := "Intro punch";
              DetectedMoment.confidence := 91 # 100 |};
           {| DetectedMoment.start_sec := 35; DetectedMoment.end_sec := 48;
              DetectedMoment.label := "Key point";
              DetectedMoment.confidence := 88 # 100 |};
           {| DetectedMoment.start_sec := 120; DetectedMoment.end_sec := 136;
              DetectedMoment.label := "Best moment";
              DetectedMoment.confidence := 93 # 100 |} ].
Proof.
  intros Hc Hu Hnew.
  rewrite (analyze_youtube_checked _ _ _ _ Hc), Hu. cbn zeta. rewrite Hnew.
  eexists _, _. split; [reflexivity|]. split; reflexivity.
Qed.

Lemma analyze_youtube_moments_witness :
  exists (out : VideoJobOut.t) (d' : Database),
    analyze_youtube http_scheme_url env0 analyze0 (Connected ∅) = (Return out, Connected d')
    /\ VideoJob.status (VideoJobOut.job out) = Status.analyzed
    /\ VideoJob.detected_moments (VideoJobOut.job out) =
         [ {| DetectedMoment.start_sec := 5; DetectedMoment.end_sec := 12;
              DetectedMoment.label := "Intro punch";
              DetectedMoment.confidence := 91 # 100 |};
           {| DetectedMoment.start_sec := 35; DetectedMoment.end_sec := 48;
              DetectedMoment.label := "Key point";
              DetectedMoment.confidence := 88 # 100 |};
           {| DetectedMoment.start_sec := 120; DetectedMoment.end_sec := 136;
              DetectedMoment.label := "Best moment";
              DetectedMoment.confidence := 93 # 100 |} ].
Proof.
  apply (analyze_youtube_moments http_scheme_url env0 analyze0 ∅ watch_url);
    reflexivity.
Defined.

(** C1 as stated fails without a store connection: the URL contains
    "youtube" and is a valid URL, yet the insert raises and no job is
    returned. *)
Lemma analyze_youtube_without_store :
  str_contains "youtube" (AnalyzeRequest.youtube_url analyze0) = true
  /\ http_scheme_url (AnalyzeRequest.youtube_url analyze0) = Some watch_url
  /\ analyze_youtube http_scheme_url env0 analyze0 NotInitialised
     = (Raise StorageError, NotInitialised).
Proof. repeat split. Qed.

(** C3 (the code departs from it): a [youtube_url] that contains
    "youtube" but is not accepted as a URL makes the construction of the
    VideoJob raise a validation error that nothing catches; the caller
    gets a 500. *)
Theorem analyze_youtube_unhandled_validation_error
    (HttpUrl : string -> option Url) (env : Env) (req : AnalyzeRequest.t)
    (db : Conn) :
  str_contains "youtube" (AnalyzeRequest.youtube_url req) = true ->
  HttpUrl (AnalyzeRequest.youtube_url req) = None ->
  analyze_youtube HttpUrl env req db = (Raise (ValidationError "youtube_url"), db)
  /\ unhandled (fst (analyze_youtube HttpUrl env req db)) = true
  /\ http_status (fst (analyze_youtube HttpUrl env req db)) = 500%nat.
Proof.
  intros Hc Hu. rewrite (analyze_youtube_checked _ _ _ _ Hc), Hu.
  repeat split.
Qed.

Lemma analyze_youtube_unhandled_validation_error_witness :
  analyze_youtube http_scheme_url env0
    {| AnalyzeRequest.youtube_url := "youtube" |} (Connected store1)
    = (Raise (ValidationError "youtube_url"), Connected store1)
  /\ unhandled (fst (analyze_youtube http_scheme_url env0
                      {| AnalyzeRequest.youtube_url := "youtube" |}
                      (Connected store1))) = true
  /\ http_status (fst (analyze_youtube http_scheme_url env0
                        {| AnalyzeRequest.youtube_url := "youtube" |}
                        (Connected store1))) = 500%nat.
Proof.
  apply (analyze_youtube_unhandled_validation_error http_scheme_url env0
           {| AnalyzeRequest.youtube_url := "youtube" |} (Connected store1));
    reflexivity.
Defined.

(** C6: an analyze request whose [youtube_url] is empty or does not
    contain "youtube" is refused with HTTP 400 and the detail "URL harus
    berupa link YouTube yang valid"; no job is returned. *)
Theorem analyze_youtube_rejects_non_youtube
    (HttpUrl : string -> option Url) (env : Env) (req : AnalyzeRequest.t)
    (db : Conn) :
  AnalyzeRequest.youtube_url req = ""
  \/ str_contains "youtube" (AnalyzeRequest.youtube_url req) = false ->
  fst (analyze_youtube HttpUrl env req db)
    = Raise (HTTPException 400 "URL harus berupa link YouTube yang valid")
  /\ http_status (fst (analyze_youtube HttpUrl env req db)) = 400%nat.
Proof.
  intros H.
  assert (str_contains "youtube" (AnalyzeRequest.youtube_url req) = false) as Hc.
  { destruct H as [->|H]; [reflexivity|exact H]. }
  rewrite (analyze_youtube_rejected _ _ _ _ Hc). split; reflexivity.
Qed.

Lemma analyze_youtube_rejects_non_youtube_witness :
  fst (analyze_youtube http_scheme_url env0
         {| AnalyzeRequest.youtube_url := "https://vimeo.com/1" |} (Connected ∅))
    = Raise (HTTPException 400 "URL harus berupa link YouTube yang valid")
  /\ http_status (fst (analyze_youtube http_scheme_url env0
         {| AnalyzeRequest.youtube_url := "https://vimeo.com/1" |} (Connected ∅)))
     = 400%nat.
Proof.
  apply (analyze_youtube_rejects_non_youtube http_scheme_url env0
           {| AnalyzeRequest.youtube_url := "https://vimeo.com/1" |} (Connected ∅)).
  right. reflexivity.
Defined.

(** C10: an analyze request that is refused with HTTP 400 - its
    [youtube_url] is empty or lacks "youtube" - leaves the store exactly
    as it was: the check comes before the only insert. *)
Theorem analyze_youtube_rejection_keeps_store
    (HttpUrl : string -> option Url) (env : Env) (req : AnalyzeRequest.t)
    (db : Conn) :
  http_status (fst (analyze_youtube HttpUrl env req db)) = 400%nat ->
  (AnalyzeRequest.youtube_url req = ""
   \/ str_contains "youtube" (AnalyzeRequest.youtube_url req) = false)
  /\ snd (analyze_youtube HttpUrl env req db) = db.
Proof.
  intros Hst.
  destruct (str_contains "youtube" (AnalyzeRequest.youtube_url req)) eqn:Hc.
  - exfalso. revert Hst. rewrite (analyze_youtube_checked _ _ _ _ Hc).
    destruct (HttpUrl _); [|discriminate].
    destruct db as [|d|d why]; [discriminate| |discriminate].
    cbn zeta. destruct (existsb _ _); discriminate.
  - rewrite (analyze_youtube_rejected _ _ _ _ Hc). split; [right|]; reflexivity.
Qed.

Lemma analyze_youtube_rejection_keeps_store_witness :
  ("" = "" \/ str_contains "youtube" "" = false)
  /\ snd (analyze_youtube http_scheme_url env0
            {| AnalyzeRequest.youtube_url := "" |} (Connected store1))
     = Connected store1.
Proof.
  apply (analyze_youtube_rejection_keeps_store http_scheme_url env0
           {| AnalyzeRequest.youtube_url := "" |} (Connected store1)).
  reflexivity.
Defined.

(** ** Get job *)

(** C7: a job created by analyze is returned by a following get-job on
    the identifier analyze gave, with the same [youtube_url], [status]
    and [detected_moments]. *)
Theorem analyze_then_get_job (HttpUrl : string -> option Url) (env : Env)
    (req : AnalyzeRequest.t) (db db' : Conn) (out : VideoJobOut.t) :
  analyze_youtube HttpUrl env req db = (Return out, db') ->
  exists got : VideoJobOut.t,
    get_job (VideoJobOut.id out) db' = (Return got, db')
    /\ VideoJobOut.id got = VideoJobOut.id out
    /\ VideoJob.youtube_url (VideoJobOut.job got)
       = VideoJob.youtube_url (VideoJobOut.job out)
    /\ VideoJob.status (VideoJobOut.job got)
       = VideoJob.status (VideoJobOut.job out)
    /\ VideoJob.detected_moments (VideoJobOut.job got)
       = VideoJob.detected_moments (VideoJobOut.job out).
Proof.
  intros Hrun.
  destruct (str_contains "youtube" (AnalyzeRequest.youtube_url req)) eqn:Hc;
    [|rewrite (analyze_youtube_rejected _ _ _ _ Hc) in Hrun; discriminate].
  rewrite (analyze_youtube_checked _ _ _ _ Hc) in Hrun.
  destruct (HttpUrl _) as [u|]; [|discriminate].
  destruct db as [|d|d why]; [discriminate| |discriminate].
  cbn zeta in Hrun.
  destruct (existsb _ _) eqn:Hnew; [discriminate|].
  injection Hrun as <- <-.
  exists {| VideoJobOut.id :=
              str_of_ObjectId (ObjectId_generate (object_id_bytes env));
            VideoJobOut.job := bson_fields (analyzed_job u env) |}.
  split; [|repeat split].
  rewrite get_job_run. cbn [VideoJobOut.id].
  rewrite ObjectId_generate_roundtrip.
  unfold with_document. rewrite lookup_total_insert_eq.
  rewrite (find_app_new _ _ {| _id := _; fields := _ |} Hnew (has_id_own _)).
  reflexivity.
Qed.

Lemma analyze_then_get_job_witness :
  exists got : VideoJobOut.t,
    get_job "000000000000000000000001" (Connected store1) = (Return got, Connected store1)
    /\ VideoJobOut.id got = "000000000000000000000001"
    /\ VideoJob.youtube_url (VideoJobOut.job got) = watch_url
    /\ VideoJob.status (VideoJobOut.job got) = Status.analyzed
    /\ VideoJob.detected_moments (VideoJobOut.job got) = heuristic_moments.
Proof.
  apply (analyze_then_get_job http_scheme_url env0 analyze0
           (Connected ∅) (Connected store1)
           {| VideoJobOut.id := "000000000000000000000001";
              VideoJobOut.job := analyzed_job watch_url env0 |}).
  reflexivity.
Defined.

(** C8 (as amended): get-job on a malformed identifier fails with HTTP
    400 "ID tidak valid", never 500, whatever the state of the store; on
    a connected store that answers, a well-formed identifier under which
    no job is stored fails with HTTP 404 "Job tidak ditemukan", and one
    under which a job is stored succeeds with that job and its id. *)
Theorem get_job_outcomes (job_id : string) (d : Database) :
  (ObjectId_of_str job_id = Raise InvalidId ->
   forall db : Conn,
     get_job job_id db = (Raise (HTTPException 400 "ID tidak valid"), db)
     /\ http_status (fst (get_job job_id db)) <> 500%nat)
  /\ (forall oid : ObjectId,
        ObjectId_of_str job_id = Return oid ->
        List.find (has_id oid) (d !!! "videojob") = None ->
        get_job job_id (Connected d)
          = (Raise (HTTPException 404 "Job tidak ditemukan"), Connected d))
  /\ (forall (oid : ObjectId) (doc : Document),
        ObjectId_of_str job_id = Return oid ->
        List.find (has_id oid) (d !!! "videojob") = Some doc ->
        get_job job_id (Connected d)
          = (Return {| VideoJobOut.id := str_of_ObjectId oid;
                       VideoJobOut.job := fields doc |}, Connected d)).
Proof.
  split; [|split].
  - intros Hid db. rewrite get_job_run, Hid.
    destruct db; split; (reflexivity || discriminate).
  - intros oid Hid Hfind. now rewrite get_job_run, Hid, Hfind.
  - intros oid doc Hid Hfind. rewrite get_job_run, Hid, Hfind.
    apply find_some in Hfind as [_ Hoid]. apply has_id_eq in Hoid.
    now rewrite Hoid.
Qed.

Lemma get_job_outcomes_witness :
  (get_job "abc" (Connected store1)
     = (Raise (HTTPException 400 "ID tidak valid"), Connected store1)
   /\ http_status (fst (get_job "abc" (Connected store1))) <> 500%nat)
  /\ get_job "0000 0000 0000 0000 0000" (Connected store1)
     = (Raise (HTTPException 404 "Job tidak ditemukan"), Connected store1)
  /\ get_job "000000000000000000000001" (Connected store1)
     = (Return {| VideoJobOut.id := "000000000000000000000001";
                  VideoJobOut.job := fields doc1 |},
        Connected store1).
Proof.
  split; [|split].
  - apply (proj1 (get_job_outcomes "abc" store1)). reflexivity.
  - apply (proj1 (proj2 (get_job_outcomes "0000 0000 0000 0000 0000" store1))
             {| binary_size := 10; binary_value := 0 |}); reflexivity.
  - apply (proj2 (proj2 (get_job_outcomes "000000000000000000000001" store1))
             (ObjectId_generate 1) doc1); reflexivity.
Defined.

(** C8 as stated fails without a store connection: the identifier is
    well formed and no job is stored under it, yet the answer is 400
    "ID tidak valid", not 404. *)
Lemma get_job_without_store :
  ObjectId_of_str "000000000000000000000002" = Return (ObjectId_generate 2)
  /\ get_job "000000000000000000000002" NotInitialised
     = (Raise (HTTPException 400 "ID tidak valid"), NotInitialised)
  /\ http_status (fst (get_job "000000000000000000000002" NotInitialised))
     <> 404%nat.
Proof. repeat split. discriminate. Qed.

(** ** Create clip *)

(** C2 (the code departs from it): the store holds one job, under
    identifier 1; a clip request naming the well-formed identifier 2,
    under which nothing is stored, is answered with a ClipResult all the
    same: the result of the lookup is dropped. *)
Theorem create_clip_ignores_missing_job :
  ObjectId_of_str "000000000000000000000002" = Return (ObjectId_generate 2)
  /\ find_one "videojob" (ObjectId_generate 2) (Connected store1)
     = (Return None, Connected store1)
  /\ create_clip env0 (clip "000000000000000000000002" (finite 0) (finite 1))
                 (Connected store1) =
       (Return {| ClipResult.job_id := "000000000000000000000002";
                  ClipResult.preview_url :=
                    Some "https://placehold.co/1280x720?text=Clip+0-1s";
                  ClipResult.start_sec := finite 0;
                  ClipResult.end_sec := finite 1;
                  ClipResult.overlays :=
                    [ {| OverlayText.content := "wow";
                         OverlayText.position := Position.top;
                         OverlayText.style := Style.title |} ];
                  ClipResult.animation := "fade";
                  ClipResult.emoji := Some ":)";
                  ClipResult.created_at := Some 0%Z |}, Connected store1).
Proof. repeat split. Qed.

(** C4 (as amended): on a connected store that answers, a clip request
    with finite bounds [0 <= start_sec < end_sec] whose [job_id] is the
    identifier of a stored job is answered with a ClipResult that repeats
    the request's [job_id], [start_sec], [end_sec], [overlays],
    [animation] and [emoji]; its [preview_url] spells the two bounds,
    each rounded to a nearest integer, a negative zero as -0. *)
Theorem create_clip_echoes_request (env : Env) (req : ClipRequest.t)
    (d : Database) (oid : ObjectId) (doc : Document) (qs qe : Q) :
  float_value (ClipRequest.start_sec req) = Some qs ->
  float_value (ClipRequest.end_sec req) = Some qe ->
  (0 <= qs)%Q ->
  (qs < qe)%Q ->
  ObjectId_of_str (ClipRequest.job_id req) = Return oid ->
  List.find (has_id oid) (d !!! "videojob") = Some doc ->
  exists res : ClipResult.t,
    create_clip env req (Connected d) = (Return res, Connected d)
    /\ ClipResult.job_id res = ClipRequest.job_id req
    /\ ClipResult.start_sec res = ClipRequest.start_sec req
    /\ ClipResult.end_sec res = ClipRequest.end_sec req
    /\ ClipResult.overlays res = ClipRequest.overlays req
    /\ ClipResult.animation res = Animation.str (ClipRequest.animation req)
    /\ ClipResult.emoji res = ClipRequest.emoji req
    /\ ClipResult.preview_url res =
         Some ("https://placehold.co/1280x720?text=Clip+"
               ++ (if is_neg_zero (ClipRequest.start_sec req) then "-0"
                   else pretty (round_half_even qs))
               ++ "-" ++ pretty (round_half_even qe) ++ "s")
    /\ (Qabs (inject_Z (round_half_even qs) - qs) <= 1 # 2)%Q
    /\ (Qabs (inject_Z (round_half_even qe) - qe) <= 1 # 2)%Q.
Proof.
  intros Hs He Hpos Hlt Hid _.
  rewrite create_clip_run, Hid.
  rewrite (float_le_values _ _ _ _ He Hs).
  assert (Qle_bool qe qs = false) as ->.
  { destruct (Qle_bool _ _) eqn:Hle; [|reflexivity].
    apply Qle_bool_iff in Hle. lra. }
  eexists. split; [reflexivity|]. cbn.
  rewrite (format_0f_nonneg _ _ Hs Hpos).
  rewrite (format_0f_nonneg _ _ He) by lra.
  assert (is_neg_zero (ClipRequest.end_sec req) = false) as ->.
  { destruct (ClipRequest.end_sec req); try reflexivity.
    injection He as <-. lra. }
  repeat split; apply round_half_even_nearest.
Qed.

Lemma create_clip_echoes_request_witness :
  exists res : ClipResult.t,
    create_clip env0 (clip "000000000000000000000001"
                           (finite (1 # 2)) (finite (5 # 2)))
                (Connected store1) = (Return res, Connected store1)
    /\ ClipResult.job_id res = "000000000000000000000001"
    /\ ClipResult.start_sec res = finite (1 # 2)
    /\ ClipResult.end_sec res = finite (5 # 2)
    /\ ClipResult.overlays res =
         [ {| OverlayText.content := "wow";
              OverlayText.position := Position.top;
              OverlayText.style := Style.title |} ]
    /\ ClipResult.animation res = "fade"
    /\ ClipResult.emoji res = Some ":)"
    /\ ClipResult.preview_url res =
         Some ("https://placehold.co/1280x720?text=Clip+"
               ++ pretty (round_half_even (1 # 2)) ++ "-"
               ++ pretty (round_half_even (5 # 2)) ++ "s")
    /\ (Qabs (inject_Z (round_half_even (1 # 2)) - (1 # 2)) <= 1 # 2)%Q
    /\ (Qabs (inject_Z (round_half_even (5 # 2)) - (5 # 2)) <= 1 # 2)%Q.
Proof.
  apply (create_clip_echoes_request env0
           (clip "000000000000000000000001" (finite (1 # 2)) (finite (5 # 2)))
           store1 (ObjectId_generate 1) doc1 (1 # 2) (5 # 2));
    first [reflexivity | discriminate].
Defined.

(** C4 as stated fails in three ways.  Without a store connection a
    request in range with a well-formed [job_id] is refused with 400.  On
    a connected store holding the job, the schema-valid bound infinity is
    spelled inf and the schema-valid negative zero is spelled -0, neither
    of which is the bound rounded to an integer. *)
Lemma create_clip_echo_counterexamples :
  (ClipRequest.valid (clip "000000000000000000000001" (finite 0) (finite 1))
     = true
   /\ float_le (finite 1) (finite 0) = false
   /\ ObjectId_of_str "000000000000000000000001" = Return (ObjectId_generate 1)
   /\ create_clip env0 (clip "000000000000000000000001" (finite 0) (finite 1))
                  NotInitialised
      = (Raise (HTTPException 400 "Job ID tidak valid"), NotInitialised))
  /\ (ClipRequest.valid (clip "000000000000000000000001" (finite 0) pos_inf)
        = true
      /\ float_le pos_inf (finite 0) = false
      /\ List.find (has_id (ObjectId_generate 1)) (store1 !!! "videojob")
         = Some doc1
      /\ fst (create_clip env0
                (clip "000000000000000000000001" (finite 0) pos_inf)
                (Connected store1))
         = Return {| ClipResult.job_id := "000000000000000000000001";
                     ClipResult.preview_url :=
                       Some "https://placehold.co/1280x720?text=Clip+0-infs";
                     ClipResult.start_sec := finite 0;
                     ClipResult.end_sec := pos_inf;
                     ClipResult.overlays :=
                       [ {| OverlayText.content := "wow";
                            OverlayText.position := Position.top;
                            OverlayText.style := Style.title |} ];
                     ClipResult.animation := "fade";
                     ClipResult.emoji := Some ":)";
                     ClipResult.created_at := Some 0%Z |})
  /\ (ClipRequest.valid (clip "000000000000000000000001" neg_zero (finite 1))
        = true
      /\ float_le (finite 1) neg_zero = false
      /\ fst (create_clip env0
                (clip "000000000000000000000001" neg_zero (finite 1))
                (Connected store1))
         = Return {| ClipResult.job_id := "000000000000000000000001";
                     ClipResult.preview_url :=
                       Some "https://placehold.co/1280x720?text=Clip+-0-1s";
                     ClipResult.start_sec := neg_zero;
                     ClipResult.end_sec := finite 1;
                     ClipResult.overlays :=
                       [ {| OverlayText.content := "wow";
                            OverlayText.position := Position.top;
                            OverlayText.style := Style.title |} ];
                     ClipResult.animation := "fade";
                     ClipResult.emoji := Some ":)";
                     ClipResult.created_at := Some 0%Z |}).
Proof. repeat split. Qed.

(** C5: a clip request with [start_sec >= end_sec] is refused with
    HTTP 400 whether its [job_id] is malformed, well formed but unknown,
    or that of a stored job: with "Job ID tidak valid" when the lookup
    raises, with "end_sec harus lebih besar dari start_sec" otherwise. *)
Theorem create_clip_rejects_empty_range (env : Env) (req : ClipRequest.t)
    (db : Conn) :
  float_le (ClipRequest.end_sec req) (ClipRequest.start_sec req) = true ->
  create_clip env req db =
    (Raise (HTTPException 400
              match db, ObjectId_of_str (ClipRequest.job_id req) with
              | Connected _, Return _ => "end_sec harus lebih besar dari start_sec"
              | _, _ => "Job ID tidak valid"
              end), db)
  /\ http_status (fst (create_clip env req db)) = 400%nat.
Proof.
  intros Hle. rewrite create_clip_run, Hle.
  destruct db as [|d|d why]; [|destruct (ObjectId_of_str _)|];
    split; reflexivity.
Qed.

Lemma create_clip_rejects_empty_range_witness :
  (create_clip env0 (clip "abc" (finite 2) (finite 2)) (Connected store1)
   = (Raise (HTTPException 400 "Job ID tidak valid"), Connected store1))
  /\ (create_clip env0 (clip "000000000000000000000002" (finite 2) (finite 1))
                  (Connected store1)
      = (Raise (HTTPException 400 "end_sec harus lebih besar dari start_sec"),
         Connected store1))
  /\ (create_clip env0 (clip "000000000000000000000001" (finite 2) (finite 1))
                  (Connected store1)
      = (Raise (HTTPException 400 "end_sec harus lebih besar dari start_sec"),
         Connected store1)).
Proof.
  split; [|split];
    refine (proj1 (create_clip_rejects_empty_range env0 _ _ _)); reflexivity.
Defined.

(** ** Every endpoint *)

(** C9: no request changes or removes a stored document.  Across any
    request the store is left as it was, or, for analyze alone, grows by
    one new VideoJob document under an identifier not in use; every
    document found before the request is found unchanged, at the same
    place, after it; create-clip stores nothing. *)
Theorem serve_keeps_documents (HttpUrl : string -> option Url) (env : Env)
    (r : Request) (db : Conn) :
  (snd (serve HttpUrl env r db) = db
   \/ exists (req : AnalyzeRequest.t) (d : Database) (doc : Document),
        r = POST_analyze req
        /\ db = Connected d
        /\ existsb (has_id (_id doc)) (d !!! "videojob") = false
        /\ VideoJob.status (fields doc) = Status.analyzed
        /\ snd (serve HttpUrl env r db)
           = Connected (with_document "videojob" doc d))
  /\ (forall req : ClipRequest.t,
        r = POST_clip req -> snd (serve HttpUrl env r db) = db)
  /\ (forall d : Database,
        db = Connected d ->
        exists d' : Database,
          snd (serve HttpUrl env r db) = Connected d'
          /\ (forall (name : string) (oid : ObjectId) (doc : Document),
                List.find (has_id oid) (d !!! name) = Some doc ->
                List.find (has_id oid) (d' !!! name) = Some doc)
          /\ (forall (name : string) (i : nat) (doc : Document),
                (d !!! name) !! i = Some doc ->
                (d' !!! name) !! i = Some doc)).
Proof.
  pose proof (serve_state HttpUrl env r db) as Hstate.
  split; [exact Hstate|split].
  - intros req ->.
    destruct Hstate as [Hsame|(req' & _ & _ & Heq & _)];
      [exact Hsame|discriminate].
  - intros d ->.
    destruct Hstate as [->|(req & d0 & doc & _ & Hdb & _ & _ & ->)].
    + exists d. auto.
    + injection Hdb as <-. eexists. split; [reflexivity|]. split.
      * intros name oid old. apply with_document_find.
      * intros name i old. apply with_document_lookup.
Qed.

Lemma serve_keeps_documents_witness :
  exists d' : Database,
    snd (serve http_scheme_url env1
           (POST_analyze analyze0) (Connected store1)) = Connected d'
    /\ List.find (has_id (ObjectId_generate 1)) (d' !!! "videojob")
       = Some doc1.
Proof.
  destruct (proj2 (proj2 (serve_keeps_documents http_scheme_url
              env1
              (POST_analyze analyze0) (Connected store1))) _ eq_refl)
    as (d' & Hrun & Hfind & _).
  exists d'. split; [exact Hrun|]. apply Hfind. reflexivity.
Defined.

(** ** Sample runs *)

Example str_contains_watch_url : str_contains "youtube" watch_url = true.
Proof. reflexivity. Qed.

Example str_contains_case_sensitive :
  str_contains "youtube" "https://www.YouTube.com/watch" = false.
Proof. reflexivity. Qed.

Example ObjectId_upper_case :
  ObjectId_of_str "0000000000000000000000FF" = Return (ObjectId_generate 255)
  /\ str_of_ObjectId (ObjectId_generate 255) = "0000000000000000000000ff".
Proof. split; reflexivity. Qed.

Example ObjectId_abc : ObjectId_of_str "abc" = Raise InvalidId.
Proof. reflexivity. Qed.

Example ObjectId_whitespace :
  ObjectId_of_str "0000 0000 0000 0000 0000"
    = Return {| binary_size := 10; binary_value := 0 |}
  /\ ObjectId_of_str "0 0000000000000000000000" = Raise InvalidId
  /\ ObjectId_of_str "00000000000000000000000 " = Raise InvalidId.
Proof. repeat split. Qed.

Example format_0f_ties :
  format_0f (finite (1 # 2)) = "0" /\ format_0f (finite (3 # 2)) = "2"
  /\ format_0f (finite (5 # 2)) = "2"
  /\ format_0f (finite (1234567 # 1000)) = "1235".
Proof. repeat split. Qed.

Example format_0f_special :
  format_0f neg_zero = "-0" /\ format_0f pos_inf = "inf"
  /\ format_0f (finite (-4 # 10)) = "-0".
Proof. repeat split. Qed.

Example analyze_youtube_first_job :
  analyze_youtube http_scheme_url env0 analyze0 (Connected ∅)
  = (Return {| VideoJobOut.id := "000000000000000000000001";
               VideoJobOut.job := analyzed_job watch_url env0 |},
     Connected store1).
Proof. reflexivity. Qed.

Example analyze_youtube_stored_timestamps :
  VideoJob.updated_at (analyzed_job watch_url env0) = Some 1%Z
  /\ VideoJob.updated_at (fields doc1) = Some 0%Z.
Proof. split; reflexivity. Qed.

Example analyze_youtube_duplicate_id :
  fst (analyze_youtube http_scheme_url env0 analyze0 (Connected store1))
  = Raise DuplicateKeyError.
Proof. reflexivity. Qed.

Example list_jobs_limit :
  fst (list_jobs 1 (Connected (with_document "videojob" doc10 store1)))
  = Return [ {| VideoJobOut.id := "000000000000000000000001";
                VideoJobOut.job := fields doc1 |} ].
Proof. reflexivity. Qed.

Example test_database_not_initialised :
  fst (test_database env0 NotInitialised)
  = Return {| TestResponse.backend := "✅ Running";
              TestResponse.database := "⚠️ Available but not initialized";
              TestResponse.database_url := None;
              TestResponse.database_name := None;
              TestResponse.connection_status := "Not Connected";
              TestResponse.collections := [] |}.
Proof. reflexivity. Qed.

Example test_database_connected :
  fst (test_database env0 (Connected store1))
  = Return {| TestResponse.backend := "✅ Running";
              TestResponse.database := "✅ Connected & Working";
              TestResponse.database_url := Some "✅ Set";
              TestResponse.database_name := Some "✅ Set";
              TestResponse.connection_status := "Connected";
              TestResponse.collections := ["videojob"] |}.
Proof. reflexivity. Qed.

Example test_database_unreachable :
  fst (test_database env0 (Unreachable store1 "No servers found yet"))
  = Return {| TestResponse.backend := "✅ Running";
              TestResponse.database :=
                "⚠️ Connected but Error: No servers found yet";
              TestResponse.database_url := Some "✅ Set";
              TestResponse.database_name := Some "✅ Set";
              TestResponse.connection_status := "Not Connected";
              TestResponse.collections := [] |}.
Proof. reflexivity. Qed.

Example get_job_unreachable :
  fst (get_job "000000000000000000000001" (Unreachable store1 "timed out"))
  = Raise (HTTPException 400 "ID tidak valid").
Proof. reflexivity. Qed.

Example list_jobs_without_store :
  unhandled (fst (list_jobs 20 NotInitialised)) = true.
Proof. reflexivity. Qed.

(** * Further properties of the handlers *)

(** ** Get job *)

(** X1: whatever the identifier and the state of the store - not
    initialised, answering, or not answering - get-job answers 200, 400
    or 404: no exception leaves the handler. *)
Theorem get_job_always_handled (job_id : string) (db : Conn) :
  unhandled (fst (get_job job_id db)) = false
  /\ (http_status (fst (get_job job_id db)) = 200%nat
      \/ http_status (fst (get_job job_id db)) = 400%nat
      \/ http_status (fst (get_job job_id db)) = 404%nat).
Proof.
  rewrite get_job_run.
  destruct db as [|d|d why]; [simpl; auto| |simpl; auto].
  destruct (ObjectId_of_str job_id); [|simpl; auto].
  destruct (List.find _ _); simpl; auto.
Qed.

Lemma existsb_false_In {A} (p : A -> bool) (l : list A) (x : A) :
  existsb p l = false -> In x l -> p x = false.
Proof.
  induction l as [|y l IH]; [intros _ []|].
  cbn [existsb]. intros Hl [->|Hin];
    apply orb_false_elim in Hl as [Hy Hl]; auto.
Qed.

Lemma ids_ok_In (c : Collection) (doc : Document) :
  ids_ok c = true -> In doc c ->
  binary_size (_id doc) = 12%nat
  /\ (binary_value (_id doc) < 2 ^ 96)%N
  /\ List.find (has_id (_id doc)) c = Some doc.
Proof.
  induction c as [|d c IH]; [intros _ []|].
  cbn [ids_ok]. intros Hc Hin.
  apply andb_prop in Hc as [Hd Hc]. apply andb_prop in Hd as [Hd Hfresh].
  apply andb_prop in Hd as [Hsize Hlt].
  apply negb_true_iff in Hfresh.
  destruct Hin as [->|Hin].
  - split; [now apply Nat.eqb_eq|]. split; [now apply N.ltb_lt|].
    cbn [List.find]. now rewrite has_id_own.
  - destruct (IH Hc Hin) as (Hs & Hl & Hfind). split; [exact Hs|].
    split; [exact Hl|]. cbn [List.find].
    assert (has_id (_id doc) d = false) as ->; [|exact Hfind].
    pose proof (existsb_false_In _ _ _ Hfresh Hin) as Hne.
    unfold has_id in *. now rewrite ObjectId_eqb_sym.
Qed.



(** ** Create clip *)

(** X3: create-clip answers 200 or 400 and nothing else, whatever the
    request and the state of the store, and 200 exactly when the store is
    connected and answers, [ObjectId(job_id)] does not raise and the test
    [end_sec <= start_sec] is false. *)
Theorem create_clip_accepts_iff (env : Env) (req : ClipRequest.t) (db : Conn) :
  (http_status (fst (create_clip env req db)) = 200%nat
   <-> (exists d : Database, db = Connected d)
       /\ (exists oid : ObjectId,
             ObjectId_of_str (ClipRequest.job_id req) = Return oid)
       /\ float_le (ClipRequest.end_sec req) (ClipRequest.start_sec req) = false)
  /\ (http_status (fst (create_clip env req db)) = 200%nat
      \/ http_status (fst (create_clip env req db)) = 400%nat)
  /\ unhandled (fst (create_clip env req db)) = false.
Proof.
  rewrite create_clip_run.
  destruct db as [|d|d why].
  - cbn. repeat split; auto; try discriminate.
    intros ((d & Hd) & _). discriminate.
  - destruct (ObjectId_of_str (ClipRequest.job_id req)) as [oid|e].
    + destruct (float_le _ _) eqn:Hle; cbn.
      * repeat split; auto; try discriminate.
        intros (_ & _ & Hlt). discriminate.
      * repeat split; eauto.
    + cbn. repeat split; auto; try discriminate.
      intros (_ & (oid & Hoid) & _). discriminate.
  - destruct (ObjectId_of_str (ClipRequest.job_id req)); cbn;
      (repeat split; auto; try discriminate;
       intros ((d0 & Hd) & _); discriminate).
Qed.

(** X4: on a connected store the answer of create-clip does not depend
    on what the store holds: the document looked up is never used. *)
Theorem create_clip_blind_to_store (env : Env) (req : ClipRequest.t)
    (d1 d2 : Database) :
  fst (create_clip env req (Connected d1))
  = fst (create_clip env req (Connected d2)).
Proof.
  rewrite !create_clip_run.
  destruct (ObjectId_of_str _); [destruct (float_le _ _)|]; reflexivity.
Qed.

Lemma round_half_even_cases (q : Q) :
  round_half_even q = Qfloor q \/ round_half_even q = (Qfloor q + 1)%Z.
Proof.
  unfold round_half_even.
  destruct (_ ?= _)%Q; [destruct (Z.even _)|..]; auto.
Qed.

Lemma round_half_even_mono (p q : Q) :
  (p <= q)%Q -> (round_half_even p <= round_half_even q)%Z.
Proof.
  intros Hpq.
  pose proof (Qfloor_resp_le _ _ Hpq) as Hfl.
  destruct (Z.eq_dec (Qfloor p) (Qfloor q)) as [Heq|Hne].
  - unfold round_half_even. rewrite <- Heq.
    destruct (Qcompare_spec (p - inject_Z (Qfloor p)) (1 # 2)) as [Hp|Hp|Hp];
      destruct (Qcompare_spec (q - inject_Z (Qfloor p)) (1 # 2)) as [Hq|Hq|Hq];
      destruct (Z.even (Qfloor p)); try lia;
      exfalso; revert Hp Hq Hpq; generalize (inject_Z (Qfloor p));
      intros f; intros; lra.
  - destruct (round_half_even_cases p) as [-> | ->],
             (round_half_even_cases q) as [-> | ->]; lia.
Qed.

(** X5: for a schema-valid clip request with a finite [end_sec] that
    create-clip accepts, the two numbers spelled in the preview label
    are whole, non-negative and in order - the first never exceeds the
    second - the first behind a minus sign exactly when [start_sec] is
    the negative zero. *)
Theorem create_clip_preview_in_order (env : Env) (req : ClipRequest.t)
    (db db' : Conn) (res : ClipResult.t) (qe : Q) :
  ClipRequest.valid req = true ->
  float_value (ClipRequest.end_sec req) = Some qe ->
  create_clip env req db = (Return res, db') ->
  exists a b : Z,
    ClipResult.preview_url res =
      Some ("https://placehold.co/1280x720?text=Clip+"
            ++ (if is_neg_zero (ClipRequest.start_sec req) then "-" else "")
            ++ pretty a ++ "-" ++ pretty b ++ "s")
    /\ (0 <= a <= b)%Z
    /\ (is_neg_zero (ClipRequest.start_sec req) = true -> a = 0%Z).
Proof.
  intros Hvalid He. unfold ClipRequest.valid in Hvalid.
  apply andb_prop in Hvalid as [Hs0 He0].
  rewrite create_clip_run.
  destruct db as [|d|d why]; [intros [=]| |].
  2:{ destruct (ObjectId_of_str (ClipRequest.job_id req)); intros [=]. }
  destruct (ObjectId_of_str (ClipRequest.job_id req)); [|intros [=]].
  destruct (float_le (ClipRequest.end_sec req) (ClipRequest.start_sec req))
    eqn:Hle; [intros [=]|].
  intros [= <- <-]. cbn [ClipResult.preview_url].
  assert (exists qs, float_value (ClipRequest.start_sec req) = Some qs)
    as [qs Hs].
  { destruct (ClipRequest.start_sec req); cbn; eauto; try discriminate.
    destruct (ClipRequest.end_sec req); discriminate. }
  rewrite (float_le_values (finite 0) _ 0 _ eq_refl Hs) in Hs0.
  rewrite (float_le_values (finite 0) _ 0 _ eq_refl He) in He0.
  rewrite (float_le_values _ _ _ _ He Hs) in Hle.
  apply Qle_bool_iff in Hs0, He0.
  assert (qs < qe)%Q as Hlt.
  { destruct (Qlt_le_dec qs qe) as [Hlt|Hge]; [exact Hlt|].
    apply Qle_bool_iff in Hge. congruence. }
  exists (round_half_even qs), (round_half_even qe).
  rewrite (format_0f_nonneg _ _ Hs Hs0), (format_0f_nonneg _ _ He He0).
  assert (is_neg_zero (ClipRequest.end_sec req) = false) as ->.
  { destruct (ClipRequest.end_sec req); try reflexivity.
    injection He as <-. lra. }
  split; [|split].
  - destruct (ClipRequest.start_sec req); try reflexivity.
    injection Hs as <-. reflexivity.
  - split; [now apply round_half_even_nonneg|].
    apply round_half_even_mono. lra.
  - destruct (ClipRequest.start_sec req); try discriminate.
    injection Hs as <-. reflexivity.
Qed.

Lemma create_clip_preview_in_order_witness :
  exists a b : Z,
    Some "https://placehold.co/1280x720?text=Clip+-0-0s" =
      Some ("https://placehold.co/1280x720?text=Clip+"
            ++ "-" ++ pretty a ++ "-" ++ pretty b ++ "s")
    /\ (0 <= a <= b)%Z
    /\ (true = true -> a = 0%Z).
Proof.
  apply (create_clip_preview_in_order env0
           (clip "000000000000000000000001" neg_zero (finite (4 # 10)))
           (Connected store1) (Connected store1)
           {| ClipResult.job_id := "000000000000000000000001";
              ClipResult.preview_url :=
                Some "https://placehold.co/1280x720?text=Clip+-0-0s";
              ClipResult.start_sec := neg_zero;
              ClipResult.end_sec := finite (4 # 10);
              ClipResult.overlays :=
                ClipRequest.overlays (clip "" neg_zero neg_zero);
              ClipResult.animation := "fade";
              ClipResult.emoji := Some ":)";
              ClipResult.created_at := Some 0%Z |} (4 # 10));
    reflexivity.
Defined.

Lemma round_half_even_whole (q : Q) (n : Z) :
  (q == inject_Z n)%Q -> round_half_even q = n.
Proof.
  intros Hq. unfold round_half_even.
  assert (Qfloor q = n) as -> by (rewrite Hq; apply Qfloor_Z).
  destruct (Qcompare_spec (q - inject_Z n) (1 # 2)) as [H|H|H];
    [exfalso|reflexivity|exfalso]; rewrite Hq in H; lra.
Qed.

(** X6: a clip whose bounds are finite whole numbers of seconds
    [0 <= a < b], neither given as the negative zero, asked of a
    connected store under a [job_id] that parses, gets the preview label
    "Clip+a-bs" with exactly those numbers. *)
Theorem create_clip_whole_seconds (env : Env) (req : ClipRequest.t)
    (d : Database) (oid : ObjectId) (qs qe : Q) (a b : Z) :
  (0 <= a < b)%Z ->
  ClipRequest.start_sec req = finite qs ->
  ClipRequest.end_sec req = finite qe ->
  (qs == inject_Z a)%Q ->
  (qe == inject_Z b)%Q ->
  ObjectId_of_str (ClipRequest.job_id req) = Return oid ->
  exists res : ClipResult.t,
    create_clip env req (Connected d) = (Return res, Connected d)
    /\ ClipResult.preview_url res =
         Some ("https://placehold.co/1280x720?text=Clip+"
               ++ pretty a ++ "-" ++ pretty b ++ "s").
Proof.
  intros Hab Hs He Ha Hb Hid.
  assert (0 <= qs)%Q as Hs0.
  { rewrite Ha. change 0%Q with (inject_Z 0). rewrite <- Zle_Qle. lia. }
  assert (0 <= qe)%Q as He0.
  { rewrite Hb. change 0%Q with (inject_Z 0). rewrite <- Zle_Qle. lia. }
  rewrite create_clip_run, Hid, Hs, He. cbn [float_le].
  assert (Qle_bool qe qs = false) as ->.
  { destruct (Qle_bool _ _) eqn:Hle; [|reflexivity].
    apply Qle_bool_iff in Hle. rewrite Ha, Hb, <- Zle_Qle in Hle. lia. }
  eexists. split; [reflexivity|]. cbn [ClipResult.preview_url format_0f].
  rewrite (fixed0_nonneg _ Hs0), (fixed0_nonneg _ He0).
  now rewrite (round_half_even_whole _ _ Ha), (round_half_even_whole _ _ Hb).
Qed.

Lemma create_clip_whole_seconds_witness :
  exists res : ClipResult.t,
    create_clip env0 (clip "000000000000000000000002"
                           (finite (6 # 2)) (finite (14 # 2)))
                (Connected store1) = (Return res, Connected store1)
    /\ ClipResult.preview_url res =
         Some ("https://placehold.co/1280x720?text=Clip+"
               ++ pretty 3%Z ++ "-" ++ pretty 7%Z ++ "s").
Proof.
  apply (create_clip_whole_seconds env0
           (clip "000000000000000000000002" (finite (6 # 2)) (finite (14 # 2)))
           store1 (ObjectId_generate 2) (6 # 2) (14 # 2) 3 7);
    first [reflexivity | lia].
Defined.

(** ** Analyze *)

Lemma append_cons (c : ascii) (a b : string) :
  String c a ++ b = String c (a ++ b).
Proof. reflexivity. Qed.

Lemma append_nil (b : string) : "" ++ b = b.
Proof. reflexivity. Qed.

Lemma prefix_split (a s : string) :
  String.prefix a s = true <-> exists post : string, s = a ++ post.
Proof.
  revert s. induction a as [|c a IH]; intros s.
  - destruct s; simpl; split; eauto.
  - destruct s as [|c' s]; simpl.
    + split; [discriminate|]. intros [post Hpost].
      rewrite append_cons in Hpost. discriminate.
    + destruct (ascii_dec c c') as [->|Hne].
      * rewrite IH. split; intros [post Hpost]; exists post;
          rewrite ?append_cons in *; congruence.
      * split; [discriminate|]. intros [post Hpost].
        rewrite append_cons in Hpost. congruence.
Qed.

Lemma str_contains_split (sub s : string) :
  str_contains sub s = true <-> exists pre post : string, s = pre ++ sub ++ post.
Proof.
  induction s as [|c s IH].
  - cbn [str_contains]. rewrite orb_false_r, prefix_split. split.
    + intros [post Hpost]. now exists "", post.
    + intros (pre & post & Hs). destruct pre as [|c pre].
      * now exists post.
      * rewrite append_cons in Hs. discriminate.
  - cbn [str_contains]. rewrite orb_true_iff, prefix_split, IH. split.
    + intros [[post Hpost]|(pre & post & Hs)].
      * now exists "", post.
      * exists (String c pre), post. now rewrite append_cons, Hs.
    + intros (pre & post & Hs). destruct pre as [|c' pre].
      * left. now exists post.
      * right. exists pre, post. rewrite append_cons in Hs. congruence.
Qed.

(** X7: analyze answers 400 exactly when the URL cannot be cut as some
    text, then "youtube", then some text; where the word stands in the
    URL does not matter. *)
Theorem analyze_youtube_400_iff (HttpUrl : string -> option Url) (env : Env)
    (req : AnalyzeRequest.t) (db : Conn) :
  http_status (fst (analyze_youtube HttpUrl env req db)) = 400%nat
  <-> ~ exists pre post : string,
          AnalyzeRequest.youtube_url req = pre ++ "youtube" ++ post.
Proof.
  rewrite <- str_contains_split.
  destruct (str_contains "youtube" (AnalyzeRequest.youtube_url req)) eqn:Hc.
  - rewrite (analyze_youtube_checked _ _ _ _ Hc). split; [|congruence].
    destruct (HttpUrl _); [|discriminate].
    destruct db as [|d|d why]; [discriminate| |discriminate].
    cbn zeta. destruct (existsb _ _); discriminate.
  - rewrite (analyze_youtube_rejected _ _ _ _ Hc). split; [congruence|reflexivity].
Qed.

(** X8: a job returned by analyze carries the validated form of the
    requested URL, no title, author or thumbnail, the two clock
    readings as its timestamps, and an id that is a well-formed
    identifier. *)
Theorem analyze_youtube_response (HttpUrl : string -> option Url) (env : Env)
    (req : AnalyzeRequest.t) (db db' : Conn) (out : VideoJobOut.t) :
  analyze_youtube HttpUrl env req db = (Return out, db') ->
  HttpUrl (AnalyzeRequest.youtube_url req)
    = Some (VideoJob.youtube_url (VideoJobOut.job out))
  /\ VideoJob.title (VideoJobOut.job out) = None
  /\ VideoJob.author (VideoJobOut.job out) = None
  /\ VideoJob.thumbnail_url (VideoJobOut.job out) = None
  /\ VideoJob.created_at (VideoJobOut.job out) = Some (now env 0)
  /\ VideoJob.updated_at (VideoJobOut.job out) = Some (now env 1)
  /\ ObjectId_of_str (VideoJobOut.id out)
     = Return (ObjectId_generate (object_id_bytes env)).
Proof.
  intros Hrun.
  destruct (str_contains "youtube" (AnalyzeRequest.youtube_url req)) eqn:Hc;
    [|rewrite (analyze_youtube_rejected _ _ _ _ Hc) in Hrun; discriminate].
  rewrite (analyze_youtube_checked _ _ _ _ Hc) in Hrun.
  destruct (HttpUrl _) as [u|]; [|discriminate].
  destruct db as [|d|d why]; [discriminate| |discriminate].
  cbn zeta in Hrun. destruct (existsb _ _); [discriminate|].
  injection Hrun as <- <-. cbn [VideoJobOut.job VideoJobOut.id].
  repeat split. apply ObjectId_generate_roundtrip.
Qed.

Lemma analyze_youtube_response_witness :
  http_scheme_url watch_url = Some watch_url
  /\ VideoJob.title (analyzed_job watch_url env0) = None
  /\ VideoJob.author (analyzed_job watch_url env0) = None
  /\ VideoJob.thumbnail_url (analyzed_job watch_url env0) = None
  /\ VideoJob.created_at (analyzed_job watch_url env0) = Some 0%Z
  /\ VideoJob.updated_at (analyzed_job watch_url env0) = Some 1%Z
  /\ ObjectId_of_str "000000000000000000000001" = Return (ObjectId_generate 1).
Proof.
  apply (analyze_youtube_response http_scheme_url env0 analyze0
           (Connected ∅) (Connected store1)
           {| VideoJobOut.id := "000000000000000000000001";
              VideoJobOut.job := analyzed_job watch_url env0 |}).
  reflexivity.
Defined.

(** ** The diagnostic endpoint *)


(** ** Detected moments *)

(** X15: a detected moment is accepted exactly when both bounds are
    non-negative and the confidence (0.8 when absent) lies in [0, 1];
    nothing relates the two bounds, so a moment may end before it
    starts.  An accepted moment holds the values given. *)
Theorem DetectedMoment_new_accepts_iff (start_sec end_sec : Q)
    (label : string) (confidence : option Q) :
  let c := default (8 # 10) confidence in
  ((exists m : DetectedMoment.t,
      DetectedMoment.new start_sec end_sec label confidence = Return m)
   <-> (0 <= start_sec)%Q /\ (0 <= end_sec)%Q /\ (0 <= c <= 1)%Q)
  /\ (forall m : DetectedMoment.t,
        DetectedMoment.new start_sec end_sec label confidence = Return m ->
        DetectedMoment.start_sec m = start_sec
        /\ DetectedMoment.end_sec m = end_sec
        /\ DetectedMoment.label m = label
        /\ DetectedMoment.confidence m = c).
Proof.
  intros c. unfold DetectedMoment.new. fold c.
  destruct (Qle_bool 0 start_sec) eqn:Hs; cbn [negb].
  2:{ split; [split|discriminate].
      - intros [m Hm]. discriminate.
      - intros (H & _). apply Qle_bool_iff in H. congruence. }
  destruct (Qle_bool 0 end_sec) eqn:He; cbn [negb].
  2:{ split; [split|discriminate].
      - intros [m Hm]. discriminate.
      - intros (_ & H & _). apply Qle_bool_iff in H. congruence. }
  destruct (Qle_bool 0 c && Qle_bool c 1) eqn:Hc; cbn [negb].
  - apply andb_prop in Hc as [Hc0 Hc1].
    apply Qle_bool_iff in Hs, He, Hc0, Hc1.
    split; [split; eauto|]. intros m [= <-]. auto.
  - split; [split|discriminate].
    + intros [m Hm]. discriminate.
    + intros (_ & _ & H0 & H1). apply Qle_bool_iff in H0, H1.
      rewrite H0, H1 in Hc. discriminate.
Qed.

(** ** Identifiers kept by the store *)

Lemma ids_ok_app (c : Collection) (doc : Document) :
  ids_ok c = true ->
  existsb (has_id (_id doc)) c = false ->
  binary_size (_id doc) = 12%nat ->
  (binary_value (_id doc) < 2 ^ 96)%N ->
  ids_ok (c ++ [doc]) = true.
Proof.
  intros Hc Hnew Hsize Hlt.
  induction c as [|d c IH]; cbn [ids_ok app existsb] in *.
  - apply N.ltb_lt in Hlt. apply Nat.eqb_eq in Hsize. now rewrite Hsize, Hlt.
  - apply andb_prop in Hc as [Hd Hc]. apply andb_prop in Hd as [Hd Hfresh].
    apply orb_false_elim in Hnew as [Hne Hnew].
    rewrite Hd, (IH Hc Hnew), existsb_app. cbn [existsb].
    apply negb_true_iff in Hfresh. rewrite Hfresh.
    unfold has_id in *. rewrite ObjectId_eqb_sym, Hne. reflexivity.
Qed.

Lemma serve_state_analyzed (HttpUrl : string -> option Url) (env : Env)
    (r : Request) (db : Conn) :
  snd (serve HttpUrl env r db) = db
  \/ exists (d : Database) (u : Url),
       db = Connected d
       /\ existsb (has_id (ObjectId_generate (object_id_bytes env)))
                  (d !!! "videojob") = false
       /\ snd (serve HttpUrl env r db)
          = Connected (with_document "videojob"
                         {| _id := ObjectId_generate (object_id_bytes env);
                            fields := bson_fields (analyzed_job u env) |} d).
Proof.
  destruct (serve_state HttpUrl env r db)
    as [Hsame|(req & d & doc & -> & -> & _ & _ & _)]; [now left|].
  cbn [serve]. rewrite fmapM_state.
  destruct (str_contains "youtube" (AnalyzeRequest.youtube_url req)) eqn:Hc;
    [|left; now rewrite (analyze_youtube_rejected _ _ _ _ Hc)].
  rewrite (analyze_youtube_checked _ _ _ _ Hc).
  destruct (HttpUrl _) as [u|]; [|now left].
  cbn zeta. destruct (existsb _ _) eqn:Hnew; [now left|].
  right. now exists d, u.
Qed.

(** X11: if the identifiers of the stored jobs are twelve bytes wide and
    pairwise distinct before a request, they still are after it, for
    every request to every endpoint. *)
Theorem serve_keeps_ids_ok (HttpUrl : string -> option Url) (env : Env)
    (r : Request) (d : Database) :
  ids_ok (d !!! "videojob") = true ->
  exists d' : Database,
    snd (serve HttpUrl env r (Connected d)) = Connected d'
    /\ ids_ok (d' !!! "videojob") = true.
Proof.
  intros Hok.
  destruct (serve_state_analyzed HttpUrl env r (Connected d))
    as [->|(d0 & u & [= <-] & Hnew & ->)]; [now exists d|].
  eexists. split; [reflexivity|].
  unfold with_document. rewrite lookup_total_insert_eq.
  apply ids_ok_app;
    [exact Hok|exact Hnew|apply ObjectId_generate_size|apply ObjectId_generate_lt].
Qed.

Lemma serve_keeps_ids_ok_witness :
  exists d' : Database,
    snd (serve http_scheme_url env1 (POST_analyze analyze0) (Connected store1))
      = Connected d'
    /\ ids_ok (d' !!! "videojob") = true.
Proof.
  apply (serve_keeps_ids_ok http_scheme_url env1 (POST_analyze analyze0) store1).
  reflexivity.
Defined.

(** X12: a job that get-job returns before a request is returned by
    get-job, unchanged, after it, whatever the request was. *)
Theorem get_job_stable (HttpUrl : string -> option Url) (env : Env)
    (r : Request) (job_id : string) (db : Conn) (got : VideoJobOut.t) :
  fst (get_job job_id db) = Return got ->
  fst (get_job job_id (snd (serve HttpUrl env r db))) = Return got.
Proof.
  intros Hgot.
  destruct (serve_state_analyzed HttpUrl env r db)
    as [->|(d & u & -> & _ & ->)]; [exact Hgot|].
  revert Hgot. rewrite !get_job_run.
  destruct (ObjectId_of_str job_id) as [oid|]; [|discriminate].
  destruct (List.find (has_id oid) (d !!! "videojob")) as [doc|] eqn:Hfind;
    [|discriminate].
  now rewrite (with_document_find _ _ _ _ _ _ Hfind).
Qed.

Lemma get_job_stable_witness :
  fst (get_job "000000000000000000000001"
         (snd (serve http_scheme_url env1 (POST_analyze analyze0) (Connected store1))))
  = Return {| VideoJobOut.id := "000000000000000000000001";
              VideoJobOut.job := fields doc1 |}.
Proof.
  apply (get_job_stable http_scheme_url env1 (POST_analyze analyze0)
           "000000000000000000000001" (Connected store1)).
  reflexivity.
Defined.

(** ** List jobs *)

Lemma list_jobs_run (limit : Z) (d : Database) :
  list_jobs limit (Connected d)
  = (Return (job_out <$> take (Z.to_nat limit) (d !!! "videojob")),
     Connected d).
Proof. reflexivity. Qed.

(** X13: with the store's find as the specification describes it, list-jobs
    with a positive limit returns at most [limit] jobs: the responses for the
    first documents of the collection, in store order, and for all of them
    when the collection is not longer than the limit. *)
Theorem list_jobs_up_to_limit (limit : Z) (d : Database) :
  (0 < limit)%Z ->
  exists outs : list VideoJobOut.t,
    list_jobs limit (Connected d) = (Return outs, Connected d)
    /\ (Z.of_nat (length outs) <= limit)%Z
    /\ outs `prefix_of` (job_out <$> (d !!! "videojob"))
    /\ ((Z.of_nat (length (d !!! "videojob")) <= limit)%Z ->
        outs = job_out <$> (d !!! "videojob")).
Proof.
  intros Hpos. eexists. split; [apply list_jobs_run|].
  rewrite length_fmap, length_take. split; [lia|]. split.
  - rewrite <- (take_drop (Z.to_nat limit) (d !!! "videojob")) at 2.
    rewrite fmap_app. now eexists.
  - intros Hlen. rewrite take_ge by lia. reflexivity.
Qed.

Lemma list_jobs_up_to_limit_witness :
  exists outs : list VideoJobOut.t,
    list_jobs 1 (Connected (with_document "videojob" doc10 store1))
      = (Return outs, Connected (with_document "videojob" doc10 store1))
    /\ (Z.of_nat (length outs) <= 1)%Z
    /\ outs `prefix_of`
         (job_out <$> (with_document "videojob" doc10 store1 !!! "videojob"))
    /\ ((Z.of_nat (length (with_document "videojob" doc10 store1 !!! "videojob"))
         <= 1)%Z ->
        outs = job_out <$> (with_document "videojob" doc10 store1 !!! "videojob")).
Proof.
  apply (list_jobs_up_to_limit 1 (with_document "videojob" doc10 store1)).
  reflexivity.
Defined.

(** X14: when the stored identifiers are twelve bytes wide and distinct,
    every job that list-jobs returns is returned, identical, by get-job
    on the id it was listed under. *)
Theorem list_jobs_then_get_job (limit : Z) (d : Database) (db' : Conn)
    (outs : list VideoJobOut.t) (out : VideoJobOut.t) :
  ids_ok (d !!! "videojob") = true ->
  list_jobs limit (Connected d) = (Return outs, db') ->
  In out outs ->
  get_job (VideoJobOut.id out) (Connected d) = (Return out, Connected d).
Proof.
  intros Hok Hrun Hin. rewrite list_jobs_run in Hrun.
  injection Hrun as <- <-.
  apply list_elem_of_In, list_elem_of_fmap in Hin as (doc & -> & Hdoc).
  apply list_elem_of_In in Hdoc.
  assert (In doc (d !!! "videojob")) as Hall.
  { rewrite <- (take_drop (Z.to_nat limit) (d !!! "videojob")).
    apply in_or_app. now left. }
  destruct (ids_ok_In _ _ Hok Hall) as (Hsize & Hlt & Hfind).
  rewrite get_job_run. cbn [job_out VideoJobOut.id].
  now rewrite (ObjectId_roundtrip _ Hsize Hlt), Hfind.
Qed.

Lemma list_jobs_then_get_job_witness :
  get_job "00000000000000000000000a"
          (Connected (with_document "videojob" doc10 store1))
  = (Return (job_out doc10),
     Connected (with_document "videojob" doc10 store1)).
Proof.
  apply (list_jobs_then_get_job 20 (with_document "videojob" doc10 store1)
           (Connected (with_document "videojob" doc10 store1))
           [job_out doc1; job_out doc10] (job_out doc10)).
  - reflexivity.
  - reflexivity.
  - right. left. reflexivity.
Defined.



(** ** Which requests are answered *)

(** X9: with the store's insert as the specification describes it, analyze
    answers 200 exactly when the URL contains "youtube", passes the URL
    validation, the store is connected and answers, and the generated
    identifier is not yet used there; the [videojob] collection then holds
    one document more, at its end: the returned job under the generated
    identifier, its two timestamps cut to whole milliseconds. *)
Theorem analyze_youtube_accepts_iff (HttpUrl : string -> option Url)
    (env : Env) (req : AnalyzeRequest.t) (db : Conn) :
  (http_status (fst (analyze_youtube HttpUrl env req db)) = 200%nat
   <-> str_contains "youtube" (AnalyzeRequest.youtube_url req) = true
       /\ (exists u : Url, HttpUrl (AnalyzeRequest.youtube_url req) = Some u)
       /\ (exists d : Database,
             db = Connected d
             /\ existsb (has_id (ObjectId_generate (object_id_bytes env)))
                        (d !!! "videojob") = false))
  /\ (forall (out : VideoJobOut.t) (db' : Conn),
        analyze_youtube HttpUrl env req db = (Return out, db') ->
        exists d d' : Database,
          db = Connected d /\ db' = Connected d'
          /\ d' !!! "videojob"
             = ((d !!! "videojob")
                ++ [ {| _id := ObjectId_generate (object_id_bytes env);
                        fields := bson_fields (VideoJobOut.job out) |} ])%list
          /\ VideoJob.created_at (bson_fields (VideoJobOut.job out))
             = Some (now env 0 / 1000 * 1000)%Z
          /\ VideoJob.updated_at (bson_fields (VideoJobOut.job out))
             = Some (now env 1 / 1000 * 1000)%Z).
Proof.
  destruct (str_contains "youtube" (AnalyzeRequest.youtube_url req)) eqn:Hc.
  2:{ rewrite (analyze_youtube_rejected _ _ _ _ Hc).
      split; [split; [discriminate|intros (? & _); discriminate]|discriminate]. }
  rewrite (analyze_youtube_checked _ _ _ _ Hc).
  destruct (HttpUrl _) as [u|].
  2:{ split; [split; [discriminate|intros (_ & (u & ?) & _); discriminate]
             |discriminate]. }
  destruct db as [|d|d why].
  1,3: (split; [split; [discriminate|intros (_ & _ & (d0 & ? & _)); discriminate]
              |discriminate]).
  cbn zeta. destruct (existsb _ _) eqn:Hnew.
  - split; [split; [discriminate|]|discriminate].
    intros (_ & _ & (d0 & [= <-] & Hd0)). congruence.
  - split; [split; [eauto 10|reflexivity]|].
    intros out db' [= <- <-]. exists d. eexists. split; [reflexivity|].
    split; [reflexivity|]. unfold with_document.
    rewrite lookup_total_insert_eq. repeat split.
Qed.



